(** * A shallow embedding of [claude_message_visualizer/visualizer.py]

    The visualizer turns a [Message] of the Anthropic API into one HTML
    document and hands it to the notebook's display.  The embedding keeps the
    functions of [visualizer.py] under their own names, with

    - Python [str] as a list of code points, so that [len], slicing and
      [strip] count characters the way Python does;
    - attribute access that may fail as the error monad [fallible], one
      [AttributeError] per missing attribute;
    - the display as an explicit sink, the list of documents shown so far;
    - [json.dumps] and [model_dump], which live outside the repository, as
      the outcome they have on each value. *)

From Stdlib Require Import Ascii String.
From stdpp Require Import base option list gmap.

(** ** Python strings *)

(** A Python [str] is a sequence of Unicode code points. *)
Abbreviation str := (list N).

(** Markup literals.  A Rocq string literal cannot hold a bare double quote,
    so the templates below write a backquote where [visualizer.py] has a
    double quote, and [lit] puts the double quote (code point 34) back.  The
    source has no backquote of its own.  Characters outside ASCII are spliced
    in by code point. *)
Definition code_point (a : ascii) : N :=
  if Ascii.eqb a "`" then 34%N else N_of_ascii a.

Fixpoint lit (s : string) : str :=
  match s with
  | EmptyString => []
  | String a s' => code_point a :: lit s'
  end.

(** [str(n)] for a natural number: its decimal digits. *)
Fixpoint digits (u : Decimal.uint) : str :=
  match u with
  | Decimal.Nil => []
  | Decimal.D0 u => 48%N :: digits u
  | Decimal.D1 u => 49%N :: digits u
  | Decimal.D2 u => 50%N :: digits u
  | Decimal.D3 u => 51%N :: digits u
  | Decimal.D4 u => 52%N :: digits u
  | Decimal.D5 u => 53%N :: digits u
  | Decimal.D6 u => 54%N :: digits u
  | Decimal.D7 u => 55%N :: digits u
  | Decimal.D8 u => 56%N :: digits u
  | Decimal.D9 u => 57%N :: digits u
  end.

Definition str_nat (n : nat) : str := digits (Nat.to_uint n).

Arguments lit : simpl never.
Arguments str_nat : simpl never.

(** [str(x)] for an [Optional[str]]: the string itself, or [None]. *)
Definition str_optional (x : option str) : str :=
  match x with
  | Some s => s
  | None => lit "None"
  end.

(** [str.isspace] on one character: the code points CPython lists in
    [_PyUnicode_IsWhitespace]. *)
Definition isspace (c : N) : bool :=
  ((9 <=? c) && (c <=? 13) || (28 <=? c) && (c <=? 32)
   || (c =? 133) || (c =? 160) || (c =? 5760)
   || (8192 <=? c) && (c <=? 8202)
   || (c =? 8232) || (c =? 8233) || (c =? 8239) || (c =? 8287)
   || (c =? 12288))%N.

Fixpoint lstrip (s : str) : str :=
  match s with
  | [] => []
  | c :: s' => if isspace c then lstrip s' else s
  end.

Definition rstrip (s : str) : str := reverse (lstrip (reverse s)).

(** [s.strip()] *)
Definition strip (s : str) : str := rstrip (lstrip s).

(** [s.replace(old, new)] for one-character [old] and [new]. *)
Definition replace (old new : N) (s : str) : str :=
  (λ c, if decide (c = old) then new else c) <$> s.

(** [needle in haystack] as a proposition. *)
Definition contains (haystack needle : str) : Prop :=
  ∃ before after, haystack = before ++ needle ++ after.

(** ** Errors *)

(** The exceptions a render can end with.  Every one of them derives from
    [Exception]. *)
Inductive exception :=
| AttributeError (name : str)   (* an object has no attribute [name] *)
| TypeError (op : str)          (* [len] or iteration over an operand without it *)
| OtherException (msg : str).   (* raised inside a collaborator; [msg] is [str(e)] *)

Inductive fallible (A : Type) :=
| Ok (a : A)
| Err (e : exception).
Arguments Ok {A} a.
Arguments Err {A} e.

#[global] Instance fallible_ret : MRet fallible := @Ok.
#[global] Instance fallible_bind : MBind fallible := λ A B f m,
  match m with
  | Ok a => f a
  | Err e => Err e
  end.

Definition is_ok {A} (r : fallible A) : bool :=
  match r with
  | Ok _ => true
  | Err _ => false
  end.

(** [obj.name], where [field] is [None] when the object has no such
    attribute. *)
Definition getattr {A} (name : string) (field : option A) : fallible A :=
  match field with
  | Some v => Ok v
  | None => Err (AttributeError (lit name))
  end.

(** [hasattr(obj, name)] *)
Definition hasattr {A} (field : option A) : bool :=
  match field with
  | Some _ => true
  | None => false
  end.

(** What a call into a collaborator does: it returns a value, or raises an
    [Exception] whose [str(e)] is [msg]. *)
Inductive outcome (A : Type) :=
| Returns (a : A)
| Raises (msg : str).
Arguments Returns {A} a.
Arguments Raises {A} msg.

Definition propagate {A} (o : outcome A) : fallible A :=
  match o with
  | Returns a => Ok a
  | Raises msg => Err (OtherException msg)
  end.

(** ** The data model

    The visualizer reads attributes off the objects of the [anthropic]
    client.  A record field of type [option A] is an attribute that may be
    absent ([hasattr] is false, plain access raises [AttributeError]); where
    the comment says optional, [None] stands for Python's [None] as well,
    which the code treats alike.  A present attribute has the type the API
    gives it. *)

(** A value handed to [json.dumps(..., indent=2)], known by what the encoder
    does with it: without a [default] hook, and with [default=str]. *)
Module Object.
Record t := mk {
  dumps : outcome str;
  dumps_default_str : outcome str;
}.
End Object.

(** [json.dumps(obj, indent=2)] and [json.dumps(obj, indent=2, default=str)] *)
Definition json_dumps (obj : Object.t) (default_str : bool) : outcome str :=
  if default_str then Object.dumps_default_str obj else Object.dumps obj.

(** What [_safe_json] can ask of an arbitrary object. *)
Module PyObject.
Record t := mk {
  (* [None]: no [model_dump] attribute; otherwise what calling it does *)
  model_dump : option (outcome Object.t);
  (* [None]: no [__dict__] attribute *)
  __dict__ : option Object.t;
  (* the object itself as an argument of [json.dumps] *)
  self : Object.t;
}.
End PyObject.

Module Citation.
Record t := mk {
  cited_text : option str;
  url : option str;                       (* optional *)
}.
End Citation.

(** An element of a [content] list: a web search result, or a sub-block of a
    tool result. *)
Module Item.
Record t := mk {
  type : option str;
  title : option str;
  url : option str;
  page_age : option (option str);     (* [Optional[str]] when present *)
  encrypted_content : option str;
  py : PyObject.t;
}.
End Item.

(** The [content] attribute of a block. *)
Inductive content :=
| ContentStr (s : str)
| ContentList (l : list Item.t)
  (* neither [str] nor [list]: [repr] is its [str()]; it has no [__len__];
     when [iterable], what it yields are not API objects and carry neither a
     [type] nor a [url] attribute (a pydantic model yields pairs) *)
| ContentOther (repr : str) (iterable : bool).

(** The [source] of an image or document block: a [dict] or an object with
    the same keys.  A key of the [dict] that is missing reads as [None]
    through [dict.get]; a missing attribute of the object raises. *)
Module Source.
Record fields := mk {
  type : option (option str);
  media_type : option (option str);
  data : option (option str);
  url : option (option str);
}.
Inductive t :=
| Dict (d : fields)
| Obj (o : fields).
End Source.

Module Block.
Record t := mk {
  type : option str;
  text : option str;
  citations : option (list Citation.t);   (* optional *)
  name : option str;
  id : option str;
  input : option Object.t;
  tool_use_id : option str;
  is_error : option bool;                 (* optional *)
  content : option content;
  source : option Source.t;
  thinking : option str;
  py : PyObject.t;
}.
End Block.

Module Usage.
Record t := mk {
  input_tokens : nat;
  output_tokens : nat;
}.
End Usage.

Module Message.
Record t := mk {
  id : str;
  model : str;
  stop_reason : option str;               (* [Optional[str]] *)
  role : str;
  usage : option Usage.t;                 (* [Optional[Usage]] *)
  content : list Block.t;
}.
End Message.

(** The display of the notebook: the documents shown so far, oldest first. *)
Abbreviation Sink := (list str).

(** [display(HTML(html))] *)
Definition display (html : str) (sink : Sink) : Sink := sink ++ [html].

(** ** Python idioms used by the renderers *)

(** Truth value of an [Optional[str]]: [None] and the empty string are
    false. *)
Definition truthy (x : option str) : bool :=
  match x with
  | Some (_ :: _) => true
  | _ => false
  end.

(** [enumerate(l)] *)
Definition enumerate {A} (l : list A) : list (nat * A) := imap pair l.

(** A [for] loop whose body may raise: the first exception ends the loop. *)
Fixpoint for_each {A S} (body : S → A → fallible S) (l : list A) (s : S) : fallible S :=
  match l with
  | [] => Ok s
  | x :: l' => s' ← body s x; for_each body l' s'
  end.

(** [len(content)] *)
Definition len (c : content) : fallible nat :=
  match c with
  | ContentStr s => Ok (length s)
  | ContentList l => Ok (length l)
  | ContentOther _ _ => Err (TypeError (lit "len"))
  end.

(** [enumerate(content)], without the elements that carry no attribute at
    all: the characters of a [str], and what a [ContentOther] yields.  Every
    loop over a [content] skips them, as they have neither [type] nor
    [url]. *)
Definition enumerate_content (c : content) : fallible (list (nat * Item.t)) :=
  match c with
  | ContentStr _ => Ok []
  | ContentList l => Ok (enumerate l)
  | ContentOther _ iterable => if iterable then Ok [] else Err (TypeError (lit "iter"))
  end.

(** [source.get(name) if isinstance(source, dict) else source.name] *)
Definition source_field (name : string) (field : Source.fields → option (option str))
    (source : Source.t) : fallible (option str) :=
  match source with
  | Source.Dict d => Ok (default None (field d))
  | Source.Obj o => getattr name (field o)
  end.

(** ** The tables *)

Definition _get_block_tooltip_text (block_type : str) : option str :=
  let tooltips : gmap str str := list_to_map [
    (lit "text", lit "The main text content in Claude's response. This is where Claude writes its answers, explanations, and conversational replies.");
    (lit "tool_use", lit "Claude is requesting your application to execute a tool or function. Your code must run the tool and return the result in the next API call.");
    (lit "tool_result", lit "The result returned from executing a tool that Claude requested. This data is provided by your application after running the tool.");
    (lit "server_tool_use", lit "Server tools are built and maintained by Anthropic, execute on Anthropic's infrastructure, and return results in the same API call. Unlike regular tools, no client-side execution is required.");
    (lit "web_search_tool_result", lit "Results from a web search performed by Anthropic's servers. Contains search results that Claude can reference and cite in its response.");
    (lit "image", lit "Image content included in the message. Can be provided as base64-encoded data or a URL reference.");
    (lit "thinking", lit "Extended thinking content showing Claude's internal reasoning process. This helps you understand how Claude approached the problem.");
    (lit "document", lit "Document content attached to the message, such as PDFs or other file types provided as base64-encoded data.")
  ] in
  tooltips !! block_type.

Definition _get_block_icon (block_type : str) : str :=
  let icons : gmap str str := list_to_map [
    (lit "text", [167%N]);
    (lit "tool_use", [9881%N]);
    (lit "tool_result", [10003%N]);
    (lit "server_tool_use", [9670%N]);
    (lit "web_search_tool_result", [9671%N]);
    (lit "web_search_result", [183%N]);
    (lit "image", [9673%N]);
    (lit "thinking", [8756%N]);
    (lit "document", [9645%N])
  ] in
  default ([8226%N]) (icons !! block_type).

Definition _get_block_color (block_type : str) : str :=
  let colors : gmap str str := list_to_map [
    (lit "text", lit "#000");
    (lit "tool_use", lit "#000");
    (lit "tool_result", lit "#000");
    (lit "server_tool_use", lit "#000");
    (lit "web_search_tool_result", lit "#000");
    (lit "web_search_result", lit "#666");
    (lit "image", lit "#000");
    (lit "thinking", lit "#666");
    (lit "document", lit "#000")
  ] in
  default (lit "#666") (colors !! block_type).

(** ** Structured-text serialization *)

(** The body of the [try] in [_safe_json]. *)
Definition serialize (obj : PyObject.t) : outcome str :=
  match PyObject.model_dump obj with
  | Some call =>
      match call with
      | Returns dumped => json_dumps dumped false
      | Raises msg => Raises msg
      end
  | None =>
      match PyObject.__dict__ obj with
      | Some fields => json_dumps fields true
      | None => json_dumps (PyObject.self obj) true
      end
  end.

(** Line 681: the placeholder that names the failure. *)
Definition unable_to_serialize (msg : str) : str :=
  lit "<Unable to serialize: " ++ msg ++ lit ">".

Definition _safe_json (obj : PyObject.t) : str :=
  match serialize obj with
  | Returns s => s
  | Raises msg => unable_to_serialize msg
  end.

(** ** The renderers *)

(** Lines 247-254 of [_render_text_block]: the URL-to-index map of the
    message, rebuilt for every text block that has citations. *)
Definition url_to_index (message : option Message.t) : fallible (gmap str nat) :=
  let url_to_index : gmap str nat := ∅ in
  match message with
  | Some message =>
      for_each (λ url_to_index msg_block,
        if bool_decide (Block.type msg_block = Some (lit "web_search_tool_result")) then
          content ← getattr "content" (Block.content msg_block);
          results ← enumerate_content content;
          Ok (foldl (λ url_to_index '(idx, result),
                match Item.url result with
                | Some url => <[url := idx + 1]> url_to_index
                | None => url_to_index
                end) url_to_index results)
        else Ok url_to_index) (Message.content message) url_to_index
  | None => Ok url_to_index
  end.

(** The f-string of lines 268-279: one numbered excerpt. *)
Definition citation_html (citation_number : nat) (cited_text : str) : str :=
  lit "
                <div style=`background: #f9f9f9;
                            padding: 12px 16px;
                            margin-top: 12px;
                            border-left: 3px solid #dc2626;
                            font-size: 13px;
                            line-height: 1.6;
                            font-family: 'Georgia', 'Times New Roman', serif;`>
                    <strong style=`color: #dc2626;`>[" ++ str_nat citation_number ++ lit "]</strong>
                    <span style=`color: #333; margin-left: 8px;`>`" ++ cited_text ++ lit "`</span>
                </div>
                ".

(** The f-string of lines 281-290: the text followed by its excerpts. *)
Definition cited_text_html (text citation_info : str) : str :=
  lit "
        <div style=`background: #fff;
                    padding: 0;
                    font-size: 15px;
                    line-height: 1.8;
                    font-family: 'Georgia', 'Times New Roman', serif;`>
            <div style=`white-space: pre-wrap; color: #000;`>" ++ text ++ lit "</div>
            " ++ citation_info ++ lit "
        </div>
        ".

(** The f-string of lines 293-303: the placeholder of an empty text block. *)
Definition empty_text_html : str :=
  lit "
        <div style=`background: #fafafa;
                    padding: 12px 16px;
                    font-size: 13px;
                    color: #999;
                    font-style: italic;
                    font-family: 'Georgia', 'Times New Roman', serif;
                    border: 1px dashed #e5e5e5;`>
            Empty text block
        </div>
        ".

(** The f-string of lines 306-327: long text, collapsed until it is opened. *)
Definition long_text_html (text : str) : str :=
  lit "
        <details>
            <summary style=`cursor: pointer;
                           color: #000;
                           margin-bottom: 16px;
                           font-weight: 600;
                           padding: 8px 0;
                           border-bottom: 1px solid #ddd;
                           font-family: 'Georgia', 'Times New Roman', serif;`>
                Long content (" ++ str_nat (length text) ++ lit " characters) " ++ [8212%N] ++ lit " Click to expand
            </summary>
            <div style=`background: #fff;
                       padding: 16px 0;
                       white-space: pre-wrap;
                       font-size: 15px;
                       line-height: 1.8;
                       color: #000;
                       font-family: 'Georgia', 'Times New Roman', serif;`>
" ++ text ++ lit "
            </div>
        </details>
        ".

(** The f-string of lines 329-339: plain text. *)
Definition plain_text_html (text : str) : str :=
  lit "
        <div style=`background: #fff;
                    padding: 0;
                    white-space: pre-wrap;
                    font-size: 15px;
                    line-height: 1.8;
                    color: #000;
                    font-family: 'Georgia', 'Times New Roman', serif;`>
" ++ text ++ lit "
        </div>
        ".

(** Line 260: the excerpt shown for a citation. *)
Definition truncated (cited_text : str) : str :=
  if 100 <? length cited_text
  then take 100 cited_text ++ lit "..."
  else cited_text.

(** Lines 263-266: the number shown for the citation at position [idx]. *)
Definition citation_number (url_to_index : gmap str nat) (idx : nat)
    (citation : Citation.t) : nat :=
  let citation_number := idx + 1 in
  match Citation.url citation with
  | Some url =>
      match url_to_index !! url with
      | Some number => number
      | None => citation_number
      end
  | None => citation_number
  end.

(** Lines 258-279: what one turn of the citation loop appends. *)
Definition citation_entry (url_to_index : gmap str nat) (idx : nat)
    (citation : Citation.t) : str :=
  match Citation.cited_text citation with
  | Some cited_text =>
      let cited_text := truncated cited_text in
      let citation_number := citation_number url_to_index idx citation in
      citation_html citation_number cited_text
  | None => []
  end.

(** Lines 257-279: the citation loop. *)
Definition citation_info (url_to_index : gmap str nat) (citations : list Citation.t) : str :=
  foldl (λ citation_info '(idx, citation),
    citation_info ++ citation_entry url_to_index idx citation) [] (enumerate citations).

Definition _render_text_block (block : Block.t) (message : option Message.t) : fallible str :=
  text ← getattr "text" (Block.text block);
  let is_empty := bool_decide (text = []) || bool_decide (strip text = []) in
  match Block.citations block with
  | Some ((_ :: _) as citations) =>
      url_to_index ← url_to_index message;
      let citation_info := citation_info url_to_index citations in
      Ok (cited_text_html text citation_info)
  | _ =>
      if is_empty then
        Ok empty_text_html
      else if 1000 <? length text then
        Ok (long_text_html text)
      else
        Ok (plain_text_html text)
  end.

Definition _render_tool_use_block (block : Block.t) : fallible str :=
  name ← getattr "name" (Block.name block);
  id ← getattr "id" (Block.id block);
  input ← getattr "input" (Block.input block);
  input_json ← propagate (json_dumps input false);
  Ok (lit "
    <div style=`margin-bottom: 16px; font-family: 'Menlo', 'Monaco', monospace; font-size: 12px;`>
        <span style=`color: #666;`>Tool:</span> <strong style=`color: #000;`>" ++ name ++ lit "</strong>
        <span style=`margin-left: 24px; color: #666;`>ID:</span> <span style=`color: #999;`>" ++ id ++ lit "</span>
    </div>
    <details open>
        <summary style=`cursor: pointer;
                        color: #000;
                        margin-bottom: 12px;
                        font-size: 13px;
                        font-weight: 600;
                        font-family: 'Georgia', 'Times New Roman', serif;`>
            Input
        </summary>
        <pre style=`background: #fafafa;
                    padding: 18px;
                    border: 1px solid #e5e5e5;
                    border-radius: 2px;
                    overflow-x: auto;
                    font-size: 13px;
                    line-height: 1.7;
                    font-family: 'Menlo', 'Monaco', monospace;
                    color: #000;`>" ++ input_json ++ lit "</pre>
    </details>
    ").

Definition _render_tool_result_block (block : Block.t) : fallible str :=
  let is_error := default false (Block.is_error block) in
  let status_badge := if is_error then lit "<span style=`margin-left: 24px; padding: 2px 6px; background: #dc2626; color: #fff; font-weight: 700; font-size: 9px; letter-spacing: 0.05em; display: inline-block; vertical-align: middle;`>ERROR</span>" else [] in
  tool_use_id ← getattr "tool_use_id" (Block.tool_use_id block);
  let html := lit "
    <div style=`margin-bottom: 16px; font-family: 'Menlo', 'Monaco', monospace; font-size: 12px;`>
        <span style=`color: #666;`>Tool Use ID:</span> <span style=`color: #999;`>" ++ tool_use_id ++ lit "</span>
        " ++ status_badge ++ lit "
    </div>
    <details open>
        <summary style=`cursor: pointer;
                        color: #000;
                        margin-bottom: 12px;
                        font-size: 13px;
                        font-weight: 600;
                        font-family: 'Georgia', 'Times New Roman', serif;`>
            Result
        </summary>
        <div style=`background: #fafafa;
                    padding: 18px;
                    border: 1px solid #e5e5e5;
                    border-radius: 2px;
                    font-size: 13px;
                    line-height: 1.7;
                    font-family: 'Georgia', 'Times New Roman', serif;
                    color: #000;
                    white-space: pre-wrap;`>
    " in
  content ← getattr "content" (Block.content block);
  let html :=
    match content with
    | ContentStr s => html ++ s
    | ContentList l =>
        foldl (λ html content_block,
          let html :=
            match Item.type content_block with
            | Some type => html ++ lit "<div style=`margin-bottom: 12px;`><strong>[" ++ type ++ lit "]</strong></div>"
            | None => html
            end in
          html ++ _safe_json (Item.py content_block)) html l
    | ContentOther repr _ => html ++ repr
    end in
  Ok (html ++ lit "
        </div>
    </details>
    ").

Definition _render_server_tool_use_block (block : Block.t) : fallible str :=
  name ← getattr "name" (Block.name block);
  id ← getattr "id" (Block.id block);
  input ← getattr "input" (Block.input block);
  input_json ← propagate (json_dumps input false);
  Ok (lit "
    <div style=`margin-bottom: 16px; font-family: 'Menlo', 'Monaco', monospace; font-size: 12px;`>
        <span style=`color: #666;`>Tool:</span> <strong style=`color: #000;`>" ++ name ++ lit "</strong>
        <span style=`margin-left: 24px; color: #666;`>ID:</span> <span style=`color: #999;`>" ++ id ++ lit "</span>
    </div>
    <details open>
        <summary style=`cursor: pointer;
                        color: #000;
                        margin-bottom: 12px;
                        font-size: 13px;
                        font-weight: 600;
                        font-family: 'Georgia', 'Times New Roman', serif;`>
            Input
        </summary>
        <pre style=`background: #fafafa;
                    padding: 18px;
                    border: 1px solid #e5e5e5;
                    border-radius: 2px;
                    overflow-x: auto;
                    font-size: 13px;
                    line-height: 1.7;
                    font-family: 'Menlo', 'Monaco', monospace;
                    color: #000;`>" ++ input_json ++ lit "</pre>
    </details>
    ").

Definition _render_individual_search_result (result : Item.t) (index : nat) : fallible str :=
  title ← getattr "title" (Item.title result);
  url ← getattr "url" (Item.url result);
  page_age ← getattr "page_age" (Item.page_age result);
  encrypted_content ← getattr "encrypted_content" (Item.encrypted_content result);
  Ok (lit "
    <details style=`margin-top: 12px;
                    border: 1px solid #ddd;
                    border-radius: 2px;
                    background: #fafafa;`>
        <summary style=`cursor: pointer;
                        padding: 12px 16px;
                        font-family: 'Georgia', 'Times New Roman', serif;
                        font-size: 14px;
                        line-height: 1.6;`>
            <strong style=`color: #000; font-weight: 600;`>Result " ++ str_nat (index + 1) ++ lit "</strong>
            <span style=`color: #333; margin-left: 8px;`>" ++ title ++ lit "</span>
        </summary>
        <div style=`padding: 16px;
                    background: #fff;
                    border-top: 1px solid #e5e5e5;
                    font-size: 13px;
                    line-height: 1.8;
                    font-family: 'Georgia', 'Times New Roman', serif;`>
            <div style=`margin-bottom: 12px;`>
                <span style=`color: #666; font-size: 12px; text-transform: uppercase; letter-spacing: 0.05em;`>URL</span><br>
                <a href=`" ++ url ++ lit "` target=`_blank` style=`color: #000; text-decoration: underline; word-break: break-all;`>
                    " ++ url ++ lit "
                </a>
            </div>
            <div style=`margin-bottom: 12px;`>
                <span style=`color: #666; font-size: 12px; text-transform: uppercase; letter-spacing: 0.05em;`>Page Age</span><br>
                <span style=`color: #000;`>" ++ str_optional page_age ++ lit "</span>
            </div>
            <div>
                <span style=`color: #666; font-size: 12px; text-transform: uppercase; letter-spacing: 0.05em;`>Content</span><br>
                <span style=`color: #999; font-size: 12px; font-family: 'Menlo', 'Monaco', monospace;`>
                    Encrypted " ++ [183%N] ++ lit " " ++ str_nat (length encrypted_content) ++ lit " characters
                </span>
            </div>
        </div>
    </details>
    ").

(** The f-string of lines 458-473: the heading with the result count. *)
Definition search_results_html (n : nat) : str :=
  lit "
    <div style=`margin-bottom: 16px;`>
        <strong style=`color: #000;
                       font-size: 13px;
                       font-weight: 600;
                       font-family: 'Georgia', 'Times New Roman', serif;`>
            Search Results
        </strong>
        <span style=`color: #999;
                     font-size: 12px;
                     margin-left: 12px;
                     font-family: 'Menlo', 'Monaco', monospace;`>
            " ++ str_nat n ++ lit " results
        </span>
    </div>
    ".

Definition _render_web_search_result_block (block : Block.t) (depth : nat) : fallible str :=
  content ← getattr "content" (Block.content block);
  n ← len content;
  let html := search_results_html n in
  results ← enumerate_content content;
  for_each (λ html '(idx, result),
    if bool_decide (Item.type result = Some (lit "web_search_result")) then
      rendered ← _render_individual_search_result result idx;
      Ok (html ++ rendered)
    else Ok html) results html.

Definition _render_image_block (block : Block.t) : fallible str :=
  source ← getattr "source" (Block.source block);
  source_type ← source_field "type" Source.type source;
  let html := lit "
    <div style=`margin-bottom: 16px; font-family: 'Menlo', 'Monaco', monospace; font-size: 12px;`>
        <span style=`color: #666;`>Source Type:</span> <strong style=`color: #000;`>" ++ str_optional source_type ++ lit "</strong>
    " in
  if bool_decide (source_type = Some (lit "base64")) then
    media_type ← source_field "media_type" Source.media_type source;
    data ← source_field "data" Source.data source;
    let data_size := if truthy data then length (default [] data) else 0 in
    Ok (html ++ lit "
        <span style=`margin-left: 24px; color: #666;`>Media Type:</span> <strong style=`color: #000;`>" ++ str_optional media_type ++ lit "</strong>
        <span style=`margin-left: 24px; color: #666;`>Size:</span> <span style=`color: #999;`>" ++ str_nat data_size ++ lit " bytes</span>
    </div>
    <div style=`margin-top: 12px;`>
        <img src=`data:" ++ str_optional media_type ++ lit ";base64," ++ str_optional data ++ lit "`
             style=`max-width: 100%; height: auto; border: 1px solid #ddd; border-radius: 2px;`
             alt=`Content image` />
    </div>
        ")
  else if bool_decide (source_type = Some (lit "url")) then
    url ← source_field "url" Source.url source;
    Ok (html ++ lit "
        <span style=`margin-left: 24px; color: #666;`>URL:</span> <a href=`" ++ str_optional url ++ lit "` target=`_blank` style=`color: #000; text-decoration: underline;`>" ++ str_optional url ++ lit "</a>
    </div>
    <div style=`margin-top: 12px;`>
        <img src=`" ++ str_optional url ++ lit "`
             style=`max-width: 100%; height: auto; border: 1px solid #ddd; border-radius: 2px;`
             alt=`Content image` />
    </div>
        ")
  else
    Ok (html ++ lit "</div>").

Definition _render_thinking_block (block : Block.t) : fallible str :=
  thinking ← getattr "thinking" (Block.thinking block);
  Ok (lit "
    <details>
        <summary style=`cursor: pointer;
                        color: #666;
                        margin-bottom: 12px;
                        font-size: 13px;
                        font-weight: 600;
                        font-family: 'Georgia', 'Times New Roman', serif;
                        font-style: italic;`>
            Extended Thinking (" ++ str_nat (length thinking) ++ lit " characters) " ++ [8212%N] ++ lit " Click to view
        </summary>
        <div style=`background: #fafafa;
                    padding: 18px;
                    border: 1px solid #e5e5e5;
                    border-left: 3px solid #666;
                    border-radius: 2px;
                    white-space: pre-wrap;
                    font-size: 13px;
                    line-height: 1.7;
                    color: #333;
                    font-family: 'Georgia', 'Times New Roman', serif;
                    font-style: italic;`>
" ++ thinking ++ lit "
        </div>
    </details>
    ").

Definition _render_document_block (block : Block.t) : fallible str :=
  source ← getattr "source" (Block.source block);
  source_type ← source_field "type" Source.type source;
  let html := lit "
    <div style=`margin-bottom: 16px; font-family: 'Menlo', 'Monaco', monospace; font-size: 12px;`>
        <span style=`color: #666;`>Source Type:</span> <strong style=`color: #000;`>" ++ str_optional source_type ++ lit "</strong>
    " in
  if bool_decide (source_type = Some (lit "base64")) then
    media_type ← source_field "media_type" Source.media_type source;
    data ← source_field "data" Source.data source;
    let data_size := if truthy data then length (default [] data) else 0 in
    Ok (html ++ lit "
        <span style=`margin-left: 24px; color: #666;`>Media Type:</span> <strong style=`color: #000;`>" ++ str_optional media_type ++ lit "</strong>
        <span style=`margin-left: 24px; color: #666;`>Size:</span> <span style=`color: #999;`>" ++ str_nat data_size ++ lit " bytes</span>
    </div>
    <div style=`background: #fafafa;
                padding: 18px;
                border: 1px solid #e5e5e5;
                border-radius: 2px;
                margin-top: 12px;
                text-align: center;
                color: #666;
                font-family: 'Georgia', 'Times New Roman', serif;`>
        <strong>Document Preview Not Available</strong><br>
        <span style=`font-size: 12px;`>Base64-encoded document: " ++ str_optional media_type ++ lit "</span>
    </div>
        ")
  else
    Ok (html ++ lit "</div>").

(** ** The dispatcher *)

(** The f-string of lines 167-189: the opening of a block, with its label and
    its index badge. *)
Definition block_open_html (color icon label_start block_type tooltip_content label_end : str)
    (index : nat) : str :=
  lit "
    <div style=`margin: 0;
                padding: 28px 36px;
                background: #fff;
                border-bottom: 1px solid #e5e5e5;`>
        <div style=`display: flex;
                   align-items: baseline;
                   margin-bottom: 20px;
                   font-family: 'Georgia', 'Times New Roman', serif;`>
            <span style=`font-size: 18px; margin-right: 10px; color: " ++ color ++ lit ";`>" ++ icon ++ lit "</span>
            " ++ label_start ++ lit "
                " ++ replace 95 32 block_type ++ lit "
                " ++ tooltip_content ++ lit "
            " ++ label_end ++ lit "
            <span style=`margin-left: auto;
                        color: #bbb;
                        font-size: 12px;
                        font-weight: 400;
                        font-family: 'Menlo', 'Monaco', monospace;`>
                Block " ++ str_nat index ++ lit "
            </span>
        </div>
    ".

Definition _render_block (block : Block.t) (index : nat) (message : option Message.t)
    (depth : nat) : fallible str :=
  block_type ← getattr "type" (Block.type block);
  let color := _get_block_color block_type in
  let icon := _get_block_icon block_type in
  let tooltip_text := _get_block_tooltip_text block_type in
  let label_start :=
    if truthy tooltip_text then lit "<strong style=`color: " ++ color ++ lit ";
                          font-size: 13px;
                          font-weight: 700;
                          letter-spacing: 0.15em;
                          text-transform: uppercase;
                          position: relative;
                          display: inline-block;`>"
    else lit "<strong style=`color: " ++ color ++ lit "; font-size: 13px; font-weight: 700; letter-spacing: 0.15em; text-transform: uppercase;`>" in
  let tooltip_content :=
    if truthy tooltip_text then lit "
                <span style=`position: absolute;
                             bottom: calc(100% + 8px);
                             left: 0;
                             background: #323232;
                             color: #fff;
                             padding: 12px 16px;
                             border-radius: 4px;
                             font-size: 12px;
                             font-weight: 400;
                             line-height: 1.5;
                             white-space: normal;
                             width: 280px;
                             text-align: left;
                             box-shadow: 0 4px 12px rgba(0,0,0,0.15);
                             opacity: 0;
                             visibility: hidden;
                             transition: opacity 0.13s ease-in-out, visibility 0.13s ease-in-out;
                             pointer-events: none;
                             z-index: 1000;
                             text-transform: none;
                             letter-spacing: normal;
                             font-family: 'Helvetica Neue', Arial, sans-serif;`>
                    " ++ str_optional tooltip_text ++ lit "
                    <span style=`position: absolute;
                                 top: 100%;
                                 left: 16px;
                                 width: 0;
                                 height: 0;
                                 border-left: 6px solid transparent;
                                 border-right: 6px solid transparent;
                                 border-top: 6px solid #323232;`></span>
                </span>
        "
    else [] in
  let label_end := lit "</strong>" in
  let html :=
    block_open_html color icon label_start block_type tooltip_content label_end index in
  let html :=
    if truthy tooltip_text then html ++ lit "
        <style>
            strong[style*=`position: relative`]:hover span[style*=`opacity: 0`] {
                opacity: 1 !important;
                visibility: visible !important;
            }
        </style>
        "
    else html in
  rendered ←
    if bool_decide (block_type = lit "text") then _render_text_block block message
    else if bool_decide (block_type = lit "tool_use") then _render_tool_use_block block
    else if bool_decide (block_type = lit "tool_result") then _render_tool_result_block block
    else if bool_decide (block_type = lit "server_tool_use") then _render_server_tool_use_block block
    else if bool_decide (block_type = lit "web_search_tool_result") then _render_web_search_result_block block depth
    else if bool_decide (block_type = lit "image") then _render_image_block block
    else if bool_decide (block_type = lit "thinking") then _render_thinking_block block
    else if bool_decide (block_type = lit "document") then _render_document_block block
    else Ok (lit "<pre style=`background: rgba(0,0,0,0.05); padding: 10px; border-radius: 4px; overflow-x: auto; font-size: 12px;`>" ++ _safe_json (Block.py block) ++ lit "</pre>");
  let html := html ++ rendered in
  Ok (html ++ lit "</div>").

(** Lines 34-79 of [_build_html]: the header, with the usage statistics when
    the message has them. *)
Definition header_html (message : Message.t) : str :=
  let header_html := lit "
    <div style=`font-family: 'Georgia', 'Times New Roman', serif;
                margin: 32px 0;
                border: 1px solid #000;
                background: #fff;`>
        <div style=`background: #fff;
                    color: #000;
                    padding: 24px 32px;
                    border-bottom: 3px solid #000;`>
            <h3 style=`margin: 0 0 16px 0;
                       font-size: 18px;
                       font-weight: 700;
                       letter-spacing: 0.05em;
                       text-transform: uppercase;`>
                Claude API Response
            </h3>
            <div style=`display: grid;
                       grid-template-columns: repeat(2, 1fr);
                       gap: 12px;
                       font-size: 13px;
                       color: #333;
                       font-family: 'Menlo', 'Monaco', 'Courier New', monospace;`>
                <div><strong>ID:</strong> " ++ Message.id message ++ lit "</div>
                <div><strong>Model:</strong> " ++ Message.model message ++ lit "</div>
                <div><strong>Stop:</strong> " ++ str_optional (Message.stop_reason message) ++ lit "</div>
                <div><strong>Role:</strong> " ++ Message.role message ++ lit "</div>
            </div>
        </div>
    " in
  match Message.usage message with
  | Some usage => header_html ++ lit "
        <div style=`background: #fff;
                    padding: 16px 32px;
                    border-bottom: 1px solid #ddd;
                    font-size: 13px;
                    font-family: 'Menlo', 'Monaco', 'Courier New', monospace;
                    color: #666;
                    line-height: 1.8;`>
            <strong style=`color: #000;`>Usage:</strong>
            <span style=`margin-left: 20px; white-space: nowrap;`>Input: <strong style=`color: #000;`>" ++ str_nat (Usage.input_tokens usage) ++ lit "</strong> tokens</span>
            <span style=`margin-left: 20px; white-space: nowrap;`>Output: <strong style=`color: #000;`>" ++ str_nat (Usage.output_tokens usage) ++ lit "</strong> tokens</span>
        </div>
        "
  | None => header_html
  end.

(** Lines 82 and 87 of [_build_html]: what encloses the blocks. *)
Definition content_open_html : str := lit "<div style=`background: #fff; padding: 0;`>".
Definition content_close_html : str := lit "</div></div>".

Definition _build_html (message : Message.t) : fallible str :=
  let header_html := header_html message in
  let content_html := content_open_html in
  content_html ← for_each (λ content_html '(idx, block),
      rendered ← _render_block block idx (Some message) 0;
      Ok (content_html ++ rendered)) (enumerate (Message.content message)) content_html;
  let content_html := content_html ++ content_close_html in
  Ok (header_html ++ content_html).

(** [visualize_message] builds the document, then shows it.  The result is
    paired with the display as the call leaves it. *)
Definition visualize_message (message : Message.t) (sink : Sink) : fallible () * Sink :=
  match _build_html message with
  | Ok html => (Ok (), display html sink)
  | Err e => (Err e, sink)
  end.

(** * Specification vocabulary *)

(** Rendering the segment at a position of a message, as [_build_html] calls
    it. *)
Definition render_segment (message : Message.t) (p : nat * Block.t) : fallible str :=
  _render_block p.2 p.1 (Some message) 0.

(** What one turn of the loop of [_render_web_search_result_block] appends
    for the result at a position. *)
Definition render_search_entry (p : nat * Item.t) : fallible str :=
  if bool_decide (Item.type p.2 = Some (lit "web_search_result"))
  then _render_individual_search_result p.2 p.1
  else Ok [].

(** ** Text segments *)

(** The text is empty or made of whitespace only. *)
Definition blank (text : str) : bool := forallb isspace text.

(** The segment has citations: the attribute is there and holds a list that
    is not empty. *)
Definition has_citations (block : Block.t) : bool :=
  match Block.citations block with
  | Some (_ :: _) => true
  | _ => false
  end.

(** ** Citation labels *)

(** The label of a citation in the words of the specification: the entry of
    the URL-to-index map for the citation's URL when there is one, else the
    1-based position of the citation in the list of its segment. *)
Definition label (index_of : gmap str nat) (idx : nat) (citation : Citation.t) : nat :=
  default (S idx) (url ← Citation.url citation; index_of !! url).

(** What a reader sees of a citation, after lines 276-277: the number between
    square brackets, then the excerpt between double quotes. *)
Definition shown_citation (number : nat) (excerpt : str) : str :=
  lit "[" ++ str_nat number ++ lit "]</strong>
                    <span style=`color: #333; margin-left: 8px;`>`" ++ excerpt ++ lit "`</span>".

(** [url] is the URL of the result at 0-based position [n] of some web search
    segment of the message. *)
Definition is_search_result_at (message : Message.t) (url : str) (n : nat) : Prop :=
  ∃ block results result,
    block ∈ Message.content message
    ∧ Block.type block = Some (lit "web_search_tool_result")
    ∧ Block.content block = Some (ContentList results)
    ∧ results !! n = Some result
    ∧ Item.url result = Some url.

(** The loop of [url_to_index] in parts: the results one segment
    contributes, what recording them does, and one turn of the outer loop. *)
Definition indexed_results (block : Block.t) : list (nat * Item.t) :=
  if bool_decide (Block.type block = Some (lit "web_search_tool_result")) then
    match Block.content block with
    | Some (ContentList results) => enumerate results
    | _ => []
    end
  else [].

Definition index_results (index_of : gmap str nat) (results : list (nat * Item.t)) :
    gmap str nat :=
  foldl (λ index_of '(idx, result),
    match Item.url result with
    | Some url => <[url := idx + 1]> index_of
    | None => index_of
    end) index_of results.

Definition index_turn (index_of : gmap str nat) (msg_block : Block.t) :
    fallible (gmap str nat) :=
  if bool_decide (Block.type msg_block = Some (lit "web_search_tool_result")) then
    content ← getattr "content" (Block.content msg_block);
    results ← enumerate_content content;
    Ok (index_results index_of results)
  else Ok index_of.

(** ** Serialization *)

(** The three attempts of the specification, in order, and how each can
    fail: (a) the conversion to a mapping, when the object has one, raises or
    its outcome cannot be encoded; (b) else the field mapping, when the
    object has one, cannot be encoded; (c) else the object itself cannot be
    encoded.  [msg] names the failure. *)
Inductive serialization_fails (obj : PyObject.t) (msg : str) : Prop :=
| conversion_raises :
    PyObject.model_dump obj = Some (Raises msg) →
    serialization_fails obj msg
| conversion_not_encodable dumped :
    PyObject.model_dump obj = Some (Returns dumped) →
    json_dumps dumped false = Raises msg →
    serialization_fails obj msg
| fields_not_encodable fields :
    PyObject.model_dump obj = None →
    PyObject.__dict__ obj = Some fields →
    json_dumps fields true = Raises msg →
    serialization_fails obj msg
| object_not_encodable :
    PyObject.model_dump obj = None →
    PyObject.__dict__ obj = None →
    json_dumps (PyObject.self obj) true = Raises msg →
    serialization_fails obj msg.

(** The tags [_render_block] has a renderer for. *)
Definition known_tags : list str := [
  lit "text"; lit "tool_use"; lit "tool_result"; lit "server_tool_use";
  lit "web_search_tool_result"; lit "image"; lit "thinking"; lit "document" ].

(** What one turn of the loop of [_render_tool_result_block] appends for a
    sub-block of the content. *)
Definition tool_result_entry (content_block : Item.t) : str :=
  match Item.type content_block with
  | Some type => lit "<div style=`margin-bottom: 12px;`><strong>[" ++ type
                 ++ lit "]</strong></div>"
  | None => []
  end ++ _safe_json (Item.py content_block).

(** ** Search results *)

(** The entry carries the tag of a web search result. *)
Definition tagged (p : nat * Item.t) : Prop :=
  Item.type p.2 = Some (lit "web_search_result").

#[global] Instance tagged_dec (p : nat * Item.t) : Decision (tagged p).
Proof. unfold tagged. apply _. Defined.

(** ** Required fields

    The fields each variant's renderer reads without asking first, after
    section 4.2 of the specification.  A [dict] source requires nothing: its
    keys are read with [dict.get]. *)

Definition source_lacks_field (with_url : bool) (source : Source.t) : bool :=
  match source with
  | Source.Dict _ => false
  | Source.Obj o =>
      match Source.type o with
      | None => true
      | Some kind =>
          if bool_decide (kind = Some (lit "base64")) then
            negb (hasattr (Source.media_type o) && hasattr (Source.data o))
          else if with_url && bool_decide (kind = Some (lit "url")) then
            negb (hasattr (Source.url o))
          else false
      end
  end.

Definition search_result_lacks_field (result : Item.t) : bool :=
  bool_decide (Item.type result = Some (lit "web_search_result"))
  && negb (hasattr (Item.title result) && hasattr (Item.url result)
           && hasattr (Item.page_age result) && hasattr (Item.encrypted_content result)).

Definition lacks_required_field (block : Block.t) : bool :=
  match Block.type block with
  | None => true
  | Some tag =>
      if bool_decide (tag = lit "text") then
        negb (hasattr (Block.text block))
      else if bool_decide (tag = lit "tool_use") || bool_decide (tag = lit "server_tool_use") then
        negb (hasattr (Block.name block) && hasattr (Block.id block)
              && hasattr (Block.input block))
      else if bool_decide (tag = lit "tool_result") then
        negb (hasattr (Block.tool_use_id block) && hasattr (Block.content block))
      else if bool_decide (tag = lit "web_search_tool_result") then
        match Block.content block with
        | None => true
        | Some (ContentList l) => existsb search_result_lacks_field l
        | Some _ => false
        end
      else if bool_decide (tag = lit "image") then
        from_option (source_lacks_field true) true (Block.source block)
      else if bool_decide (tag = lit "thinking") then
        negb (hasattr (Block.thinking block))
      else if bool_decide (tag = lit "document") then
        from_option (source_lacks_field false) true (Block.source block)
      else false
  end.

(** ** Sample data *)

Module Sample.
Definition object : Object.t :=
  Object.mk (Returns (lit "{}")) (Returns (lit "{}")).

Definition py : PyObject.t := PyObject.mk None None object.

(** A block with a tag and nothing else. *)
Definition bare (tag : string) : Block.t :=
  Block.mk (Some (lit tag)) None None None None None None None None None None py.

Definition text_block (text : str) (citations : option (list Citation.t)) : Block.t :=
  Block.mk (Some (lit "text")) (Some text) citations
    None None None None None None None None py.

Definition search_result (url : string) : Item.t :=
  Item.mk (Some (lit "web_search_result")) (Some (lit "A page")) (Some (lit url))
    (Some None) (Some (lit "c2VjcmV0")) py.

Definition search_block (results : list Item.t) : Block.t :=
  Block.mk (Some (lit "web_search_tool_result")) None None None None None None None
    (Some (ContentList results)) None None py.

Definition message (content : list Block.t) : Message.t :=
  Message.mk (lit "msg_01") (lit "claude") (Some (lit "end_turn")) (lit "assistant")
    (Some (Usage.mk 12 34)) content.

(** A text with three citations: of the second search result, one without
    a quoted text, and one without a URL. *)
Definition citing_block : Block.t :=
  text_block (lit "The answer.") (Some [
    Citation.mk (Some (lit "from the second page")) (Some (lit "u2"));
    Citation.mk None None;
    Citation.mk (Some (lit "from elsewhere")) None ]).

(** Three search results, then the text that cites them. *)
Definition cited : Message.t :=
  message [
    search_block [search_result "u1"; search_result "u2"; search_result "u3"];
    citing_block
  ].

(** The URL-to-index map of [cited]. *)
Definition index : gmap str nat :=
  <[lit "u3" := 3]> (<[lit "u2" := 2]> (<[lit "u1" := 1]> ∅)).

Definition quote : Citation.t := Citation.mk (Some (lit "a quotation")) None.

(** 1001 letters, and 1001 spaces. *)
Definition letters (n : nat) : str := replicate n 97%N.
Definition spaces (n : nat) : str := replicate n 32%N.

(** An object whose conversion to a mapping gives something the encoder
    refuses. *)
Definition unserializable : PyObject.t :=
  PyObject.mk
    (Some (Returns (Object.mk (Raises (lit "Object of type set is not JSON serializable"))
                              (Returns (lit "{}")))))
    (Some object) object.

(** A block of a variant the visualizer does not know. *)
Definition unknown_block : Block.t :=
  Block.mk (Some (lit "redacted_thinking")) None None None None None None None None
    None None unserializable.

(** A search block whose second entry is not a web search result. *)
Definition mixed_results : list Item.t :=
  [search_result "u1"; Item.mk (Some (lit "note")) None None None None py].

(** A thinking block without its [thinking] field, after a block that
    renders. *)
Definition broken : Message.t :=
  message [text_block (lit "fine") None; bare "thinking"].
End Sample.

(** ** Tool results *)

(** Line 380: the badge of a failed tool call. *)
Definition error_badge_html : str :=
  lit "<span style=`margin-left: 24px; padding: 2px 6px; background: #dc2626; color: #fff; font-weight: 700; font-size: 9px; letter-spacing: 0.05em; display: inline-block; vertical-align: middle;`>ERROR</span>".

(** The f-string of lines 382-405 and the string of lines 419-422: what
    encloses the content of a tool result. *)
Definition tool_result_open_html (tool_use_id status_badge : str) : str :=
  lit "
    <div style=`margin-bottom: 16px; font-family: 'Menlo', 'Monaco', monospace; font-size: 12px;`>
        <span style=`color: #666;`>Tool Use ID:</span> <span style=`color: #999;`>" ++ tool_use_id ++ lit "</span>
        " ++ status_badge ++ lit "
    </div>
    <details open>
        <summary style=`cursor: pointer;
                        color: #000;
                        margin-bottom: 12px;
                        font-size: 13px;
                        font-weight: 600;
                        font-family: 'Georgia', 'Times New Roman', serif;`>
            Result
        </summary>
        <div style=`background: #fafafa;
                    padding: 18px;
                    border: 1px solid #e5e5e5;
                    border-radius: 2px;
                    font-size: 13px;
                    line-height: 1.7;
                    font-family: 'Georgia', 'Times New Roman', serif;
                    color: #000;
                    white-space: pre-wrap;`>
    ".

Definition tool_result_close_html : str :=
  lit "
        </div>
    </details>
    ".

(** The content of a tool result as it is shown: a string as it is, a list
    as the entries of its sub-blocks in order, anything else by its
    [str()]. *)
Definition tool_result_body (c : content) : str :=
  match c with
  | ContentStr s => s
  | ContentList l => concat (tool_result_entry <$> l)
  | ContentOther repr _ => repr
  end.

(** ** Tags *)

(** The keys of the tables of icons and colours. *)
Definition styled_tags : list str := [
  lit "text"; lit "tool_use"; lit "tool_result"; lit "server_tool_use";
  lit "web_search_tool_result"; lit "web_search_result"; lit "image"; lit "thinking";
  lit "document" ].

(** ** More sample data *)

Module Cases.
Definition tool_use (tag : string) (input : Object.t) : Block.t :=
  Block.mk (Some (lit tag)) None None (Some (lit "get_weather")) (Some (lit "toolu_01"))
    (Some input) None None None None None Sample.py.

Definition not_encodable : Object.t :=
  Object.mk (Raises (lit "Object of type set is not JSON serializable"))
            (Returns (lit "{}")).

Definition tool_result (is_error : option bool) (c : content) : Block.t :=
  Block.mk (Some (lit "tool_result")) None None None None None (Some (lit "toolu_01"))
    is_error (Some c) None None Sample.py.

Definition sub_block (tag : string) : Item.t :=
  Item.mk (Some (lit tag)) None None None None Sample.py.

Definition image (source : Source.t) : Block.t :=
  Block.mk (Some (lit "image")) None None None None None None None None
    (Some source) None Sample.py.

(** The seventh specification example: a PNG with a payload of eight
    characters. *)
Definition png : Source.fields :=
  Source.mk (Some (Some (lit "base64"))) (Some (Some (lit "image/png")))
    (Some (Some (lit "iVBORw0K"))) None.

(** A source that says [url] and has none. *)
Definition url_without_url : Source.fields :=
  Source.mk (Some (Some (lit "url"))) None None None.

(** A text with a citation, before a web search segment that has lost its
    [content]. *)
Definition orphaned : Message.t :=
  Sample.message [Sample.citing_block; Sample.bare "web_search_tool_result"].

(** Two search segments that both list [u1]: first in second place, then in
    first place. *)
Definition listed_twice : Message.t :=
  Sample.message [
    Sample.search_block [Sample.search_result "u0"; Sample.search_result "u1"];
    Sample.search_block [Sample.search_result "u1"; Sample.search_result "u2"] ].

Definition listed_twice_index : gmap str nat :=
  <[lit "u2" := 2]> (<[lit "u1" := 1]> (<[lit "u0" := 1]> ∅)).

Definition sealed (payload : string) : Item.t :=
  Item.mk (Some (lit "web_search_result")) (Some (lit "A page")) (Some (lit "u1"))
    (Some (Some (lit "2 days ago"))) (Some (lit payload)) Sample.py.

Definition thinking (thought : str) : Block.t :=
  Block.mk (Some (lit "thinking")) None None None None None None None None None
    (Some thought) Sample.py.

(** An object with a conversion the encoder refuses and fields it would
    accept, and one with the same conversion and no fields. *)
Definition with_fields : PyObject.t :=
  PyObject.mk (Some (Returns not_encodable)) (Some Sample.object) Sample.object.

Definition without_fields : PyObject.t :=
  PyObject.mk (Some (Returns not_encodable)) None not_encodable.
End Cases.

(** * Properties *)

(** ** The error monad and the loops *)

Lemma bind_Ok {A B} (k : A → fallible B) (a : A) : (x ← Ok a; k x) = k a.
Proof. reflexivity. Qed.

Lemma bind_Err {A B} (k : A → fallible B) (e : exception) : (x ← Err e; k x) = Err e.
Proof. reflexivity. Qed.

#[global] Instance Ok_inj {A} : Inj (=) (=) (@Ok A).
Proof. by intros a b [= ->]. Qed.

Lemma getattr_Some {A} (name : string) (v : A) : getattr name (Some v) = Ok v.
Proof. reflexivity. Qed.

Lemma getattr_None {A} (name : string) :
  getattr name (@None A) = Err (AttributeError (lit name)).
Proof. reflexivity. Qed.

Lemma is_ok_true {A} (r : fallible A) : is_ok r = true ↔ ∃ a, r = Ok a.
Proof.
  destruct r as [a|e]; simpl.
  - split; eauto.
  - split; [discriminate | intros [a [=]]].
Qed.

Lemma enumerate_lookup {A} (l : list A) (i : nat) :
  enumerate l !! i = (λ x, (i, x)) <$> l !! i.
Proof. unfold enumerate. apply list_lookup_imap. Qed.

Lemma enumerate_length {A} (l : list A) : length (enumerate l) = length l.
Proof. unfold enumerate. apply length_imap. Qed.

Section loops.
Context {A : Type}.
Variable f : A → fallible str.
Variable body : str → A → fallible str.
Hypothesis body_appends : ∀ html x, body html x = (r ← f x; Ok (html ++ r)).

(** A loop that appends what [f] makes of each element ends with all of
    it, in order, when [f] never raises. *)
Lemma for_each_appends (l : list A) (frags : list str) (html : str) :
  Forall2 (λ x r, f x = Ok r) l frags →
  for_each body l html = Ok (html ++ concat frags).
Proof.
  intros H. revert html.
  induction H as [|x r l frags Hx _ IH]; intros html; simpl.
  - by rewrite app_nil_r.
  - rewrite body_appends, Hx, !bind_Ok, IH. by rewrite <-app_assoc.
Qed.

Lemma for_each_appends_inv (l : list A) (html out : str) :
  for_each body l html = Ok out →
  ∃ frags, Forall2 (λ x r, f x = Ok r) l frags ∧ out = html ++ concat frags.
Proof.
  revert html. induction l as [|x l IH]; intros html; simpl.
  - intros [= <-]. exists []. split; [constructor | by rewrite app_nil_r].
  - rewrite body_appends. destruct (f x) as [r|e] eqn:Hx; [|discriminate].
    rewrite !bind_Ok. intros (frags & Hfrags & ->)%IH.
    exists (r :: frags). split; [by constructor | simpl; by rewrite <-app_assoc].
Qed.

(** The first exception ends the loop and is its result. *)
Lemma for_each_raises (l1 l2 : list A) (x : A) (e : exception) (html : str) :
  Forall (λ y, is_ok (f y) = true) l1 →
  f x = Err e →
  for_each body (l1 ++ x :: l2) html = Err e.
Proof.
  intros H Hx. revert html.
  induction H as [|y l1 Hy _ IH]; intros html; simpl.
  - by rewrite body_appends, Hx.
  - rewrite body_appends. apply is_ok_true in Hy as [r ->]. by rewrite !bind_Ok.
Qed.

(** Either every element is rendered, or there is a first one that
    raises. *)
Lemma first_failure (l : list A) :
  (∃ frags, Forall2 (λ x r, f x = Ok r) l frags)
  ∨ (∃ l1 x l2 e, l = l1 ++ x :: l2
       ∧ Forall (λ y, is_ok (f y) = true) l1 ∧ f x = Err e).
Proof.
  induction l as [|x l IH].
  - left. exists []. constructor.
  - destruct (f x) as [r|e] eqn:Hx.
    + destruct IH as [[frags H]|(l1 & y & l2 & e & -> & H1 & Hy)].
      * left. exists (r :: frags). by constructor.
      * right. exists (x :: l1), y, l2, e. split_and!; [done| |done].
        constructor; [by rewrite Hx | done].
    + right. exists [], x, l, e. split_and!; [done|constructor|done].
Qed.
End loops.

(** ** Substrings *)

Lemma contains_app_l (a b needle : str) : contains a needle → contains (a ++ b) needle.
Proof.
  intros (before & after & ->). exists before, (after ++ b).
  by rewrite <-!app_assoc.
Qed.

Lemma contains_app_r (a b needle : str) : contains b needle → contains (a ++ b) needle.
Proof.
  intros (before & after & ->). exists (a ++ before), after.
  by rewrite <-!app_assoc.
Qed.

Lemma contains_at_seam (a x b label : str) :
  (∃ before, a = before ++ label) → contains (a ++ x ++ b) (label ++ x).
Proof.
  intros [before ->]. exists before, b. by rewrite <-!app_assoc.
Qed.

(** A closed literal ends with a closed label: settled by evaluation. *)
Ltac literal_suffix :=
  match goal with
  | |- ∃ before, ?a = before ++ ?label =>
      exists (take (length a - length label) a); vm_compute; reflexivity
  end.

(** A closed literal starts with a closed label: settled by evaluation. *)
Ltac literal_prefix :=
  match goal with
  | |- ∃ after, ?e = ?label ++ after =>
      exists (drop (length label) e); vm_compute; reflexivity
  end.

Lemma contains_trans (a b c : str) : contains a b → contains b c → contains a c.
Proof.
  intros (before & after & ->) (before' & after' & ->).
  exists (before ++ before'), (after' ++ after). by rewrite <-!app_assoc.
Qed.

Lemma contains_concat (l : list str) (x : str) : x ∈ l → contains (concat l) x.
Proof.
  intros (l1 & l2 & ->)%list_elem_of_split.
  rewrite concat_app, concat_cons. by exists (concat l1), (concat l2).
Qed.

Lemma contains_embed (c m l d e l1 l2 : str) :
  (∃ before, c = before ++ l1) → (∃ after, e = l2 ++ after) →
  contains (c ++ m ++ l ++ d ++ e) (l1 ++ m ++ l ++ d ++ l2).
Proof.
  intros [before ->] [after ->]. exists before, after. by rewrite <-!app_assoc.
Qed.

(** ** The dispatcher: one fragment per segment, in order *)

(** The opening of a block shows the index it was rendered with. *)
Lemma block_open_html_badge color icon label_start block_type tooltip_content label_end index :
  contains
    (block_open_html color icon label_start block_type tooltip_content label_end index)
    (lit "Block " ++ str_nat index).
Proof.
  unfold block_open_html.
  do 12 apply contains_app_r.
  apply contains_at_seam. literal_suffix.
Qed.

(** Whatever the variant, a rendered block carries the badge of its index. *)
Lemma _render_block_badge block index message depth html :
  _render_block block index message depth = Ok html →
  contains html (lit "Block " ++ str_nat index).
Proof.
  unfold _render_block.
  destruct (Block.type block) as [block_type|]; [|discriminate].
  rewrite getattr_Some, bind_Ok. cbv zeta.
  match goal with
  | |- (?r ≫= _) = _ → _ => destruct r as [rendered|e]; [|discriminate]
  end.
  rewrite bind_Ok. intros <-%(inj Ok).
  destruct (truthy _); rewrite <-?app_assoc;
    apply contains_app_l, block_open_html_badge.
Qed.

Lemma _build_html_ok (message : Message.t) (fragments : list str) :
  Forall2 (λ p r, render_segment message p = Ok r)
    (enumerate (Message.content message)) fragments →
  _build_html message
  = Ok (header_html message ++ content_open_html ++ concat fragments ++ content_close_html).
Proof.
  intros H. unfold _build_html. cbv zeta.
  erewrite (for_each_appends (render_segment message)); [|by intros html [idx block]|done].
  rewrite bind_Ok. by rewrite <-!app_assoc.
Qed.

Lemma _build_html_raises (message : Message.t) l1 p l2 e :
  enumerate (Message.content message) = l1 ++ p :: l2 →
  Forall (λ q, is_ok (render_segment message q) = true) l1 →
  render_segment message p = Err e →
  _build_html message = Err e.
Proof.
  intros Hl H1 Hp. unfold _build_html. cbv zeta. rewrite Hl.
  by erewrite (for_each_raises (render_segment message)); [|by intros html [idx block]|done|done].
Qed.

(** C1. For a message of N segments that all render, the document is the
    header, then the opening of the content, then exactly N fragments in the
    order of the segments, then the closing; the fragment at position [i] is
    what [_render_block] makes of segment [i] with index [i], and it shows
    the badge [Block i], counted from zero. *)
Theorem segments_in_order (message : Message.t) :
  (∀ i block, Message.content message !! i = Some block →
     is_ok (_render_block block i (Some message) 0) = true) →
  ∃ fragments : list str,
    _build_html message
    = Ok (header_html message ++ content_open_html
          ++ concat fragments ++ content_close_html)
    ∧ length fragments = length (Message.content message)
    ∧ ∀ i block, Message.content message !! i = Some block →
        ∃ fragment, fragments !! i = Some fragment
          ∧ _render_block block i (Some message) 0 = Ok fragment
          ∧ contains fragment (lit "Block " ++ str_nat i).
Proof.
  intros Hok.
  destruct (first_failure (render_segment message) (enumerate (Message.content message)))
    as [[fragments H]|(l1 & [j b] & l2 & e & Hl & _ & Hp)].
  - exists fragments. split_and!.
    + by apply _build_html_ok.
    + by rewrite <-(Forall2_length _ _ _ H), enumerate_length.
    + intros i block Hi.
      destruct (Forall2_lookup_l _ _ _ i (i, block) H) as (fragment & Hf & Hr).
      { by rewrite enumerate_lookup, Hi. }
      exists fragment. split_and!; [done..|].
      by eapply _render_block_badge.
  - assert (enumerate (Message.content message) !! length l1 = Some (j, b)) as Hj.
    { by rewrite Hl, list_lookup_middle. }
    rewrite enumerate_lookup in Hj.
    destruct (Message.content message !! length l1) as [b'|] eqn:Hb; [|done].
    injection Hj as <- <-. apply Hok in Hb.
    unfold render_segment in Hp. simpl in Hp. by rewrite Hp in Hb.
Qed.

(** The sample message renders, and its two fragments are in place. *)
Lemma segments_in_order_witness :
  ∃ fragments : list str,
    _build_html Sample.cited
    = Ok (header_html Sample.cited ++ content_open_html
          ++ concat fragments ++ content_close_html)
    ∧ length fragments = length (Message.content Sample.cited)
    ∧ ∀ i block, Message.content Sample.cited !! i = Some block →
        ∃ fragment, fragments !! i = Some fragment
          ∧ _render_block block i (Some Sample.cited) 0 = Ok fragment
          ∧ contains fragment (lit "Block " ++ str_nat i).
Proof.
  apply (segments_in_order Sample.cited).
  intros [|[|i]] block [= <-]; vm_compute; reflexivity.
Defined.

(** ** Missing fields *)

(** Tags are closed literals: comparing two of them is settled by
    evaluation. *)
Ltac decide_tags :=
  repeat match goal with
  | |- context [bool_decide (lit ?a = lit ?b)] =>
      let v := eval vm_compute in (bool_decide (lit a = lit b)) in
      change (bool_decide (lit a = lit b)) with v
  end.

Ltac raises_attribute_error := intros _; eexists; reflexivity.

Lemma text_lacking block message :
  negb (hasattr (Block.text block)) = true →
  ∃ name, _render_text_block block message = Err (AttributeError name).
Proof.
  unfold _render_text_block.
  destruct (Block.text block); [discriminate|raises_attribute_error].
Qed.

Lemma tool_use_lacking block :
  negb (hasattr (Block.name block) && hasattr (Block.id block)
        && hasattr (Block.input block)) = true →
  ∃ name, _render_tool_use_block block = Err (AttributeError name).
Proof.
  unfold _render_tool_use_block.
  destruct (Block.name block), (Block.id block), (Block.input block);
    first [discriminate|raises_attribute_error].
Qed.

Lemma server_tool_use_lacking block :
  negb (hasattr (Block.name block) && hasattr (Block.id block)
        && hasattr (Block.input block)) = true →
  ∃ name, _render_server_tool_use_block block = Err (AttributeError name).
Proof.
  unfold _render_server_tool_use_block.
  destruct (Block.name block), (Block.id block), (Block.input block);
    first [discriminate|raises_attribute_error].
Qed.

Lemma tool_result_lacking block :
  negb (hasattr (Block.tool_use_id block) && hasattr (Block.content block)) = true →
  ∃ name, _render_tool_result_block block = Err (AttributeError name).
Proof.
  unfold _render_tool_result_block.
  destruct (Block.tool_use_id block), (Block.content block);
    first [discriminate|raises_attribute_error].
Qed.

Lemma thinking_lacking block :
  negb (hasattr (Block.thinking block)) = true →
  ∃ name, _render_thinking_block block = Err (AttributeError name).
Proof.
  unfold _render_thinking_block.
  destruct (Block.thinking block); [discriminate|raises_attribute_error].
Qed.

(** The loop over the search results, seen through the general loop
    lemmas. *)
Lemma search_turn_appends (html : str) (p : nat * Item.t) :
  (let '(idx, result) := p in
   if bool_decide (Item.type result = Some (lit "web_search_result"))
   then rendered ← _render_individual_search_result result idx; Ok (html ++ rendered)
   else Ok html)
  = (r ← render_search_entry p; Ok (html ++ r)).
Proof.
  destruct p as [idx result]. unfold render_search_entry. simpl fst. simpl snd.
  destruct (bool_decide _); [done|]. by rewrite bind_Ok, app_nil_r.
Qed.

Lemma _render_web_search_result_block_list block depth l :
  Block.content block = Some (ContentList l) →
  _render_web_search_result_block block depth
  = for_each (λ html p, r ← render_search_entry p; Ok (html ++ r))
      (enumerate l) (search_results_html (length l)).
Proof.
  intros Hc. unfold _render_web_search_result_block. rewrite Hc, getattr_Some, bind_Ok.
  unfold len, enumerate_content. rewrite !bind_Ok. cbv zeta.
  generalize (search_results_html (length l)). generalize (enumerate l).
  induction l0 as [|p results IH]; intros html; [done|].
  cbn [for_each]. rewrite search_turn_appends.
  destruct (render_search_entry p); [|done]. rewrite !bind_Ok. apply IH.
Qed.

(** Only a missing attribute can stop the rendering of a search result. *)
Lemma render_search_entry_raises p e :
  render_search_entry p = Err e → ∃ name, e = AttributeError name.
Proof.
  unfold render_search_entry, _render_individual_search_result.
  destruct (bool_decide _); [|discriminate].
  destruct (Item.title p.2); [|intros [= <-]; eauto].
  destruct (Item.url p.2); [|intros [= <-]; eauto].
  destruct (Item.page_age p.2); [|intros [= <-]; eauto].
  destruct (Item.encrypted_content p.2); [|intros [= <-]; eauto].
  discriminate.
Qed.

Lemma search_result_lacking idx result :
  search_result_lacks_field result = true →
  is_ok (render_search_entry (idx, result)) = false.
Proof.
  unfold search_result_lacks_field, render_search_entry, _render_individual_search_result.
  simpl fst. simpl snd.
  destruct (bool_decide _); [|discriminate].
  destruct (Item.title result), (Item.url result), (Item.page_age result),
    (Item.encrypted_content result); first [discriminate|reflexivity].
Qed.

Lemma web_search_lacking block depth :
  match Block.content block with
  | None => true
  | Some (ContentList l) => existsb search_result_lacks_field l
  | Some _ => false
  end = true →
  ∃ name, _render_web_search_result_block block depth = Err (AttributeError name).
Proof.
  destruct (Block.content block) as [[s|l|repr iterable]|] eqn:Hc; try discriminate.
  - intros (result & Hin & Hlacks)%existsb_exists.
    rewrite (_render_web_search_result_block_list _ _ l Hc).
    destruct (first_failure render_search_entry (enumerate l))
      as [[entries H]|(l1 & p & l2 & e & Hl & H1 & Hp)].
    + apply list_elem_of_In, list_elem_of_lookup in Hin as [idx Hidx].
      destruct (Forall2_lookup_l _ _ _ idx (idx, result) H) as (entry & _ & Hentry).
      { by rewrite enumerate_lookup, Hidx. }
      apply (search_result_lacking idx) in Hlacks. by rewrite Hentry in Hlacks.
    + destruct (render_search_entry_raises _ _ Hp) as [name ->]. exists name.
      rewrite Hl. by apply (for_each_raises render_search_entry).
  - intros _. unfold _render_web_search_result_block. rewrite Hc. by eexists.
Qed.

Lemma image_lacking block :
  from_option (source_lacks_field true) true (Block.source block) = true →
  ∃ name, _render_image_block block = Err (AttributeError name).
Proof.
  unfold _render_image_block.
  destruct (Block.source block) as [[d|o]|]; [discriminate| |raises_attribute_error].
  rewrite getattr_Some, bind_Ok. unfold source_field, from_option, source_lacks_field.
  destruct (Source.type o) as [kind|]; [|raises_attribute_error].
  rewrite getattr_Some, bind_Ok. cbv zeta.
  destruct (bool_decide (kind = Some (lit "base64"))).
  { destruct (Source.media_type o), (Source.data o);
      first [discriminate|raises_attribute_error]. }
  destruct (bool_decide (kind = Some (lit "url"))); [|discriminate].
  destruct (Source.url o); first [discriminate|raises_attribute_error].
Qed.

Lemma document_lacking block :
  from_option (source_lacks_field false) true (Block.source block) = true →
  ∃ name, _render_document_block block = Err (AttributeError name).
Proof.
  unfold _render_document_block.
  destruct (Block.source block) as [[d|o]|]; [discriminate| |raises_attribute_error].
  rewrite getattr_Some, bind_Ok. unfold source_field, from_option, source_lacks_field.
  destruct (Source.type o) as [kind|]; [|raises_attribute_error].
  rewrite getattr_Some, bind_Ok. cbv zeta.
  destruct (bool_decide (kind = Some (lit "base64"))); [|discriminate].
  destruct (Source.media_type o), (Source.data o);
    first [discriminate|raises_attribute_error].
Qed.

Ltac at_tag tag name lemma :=
  destruct (decide (tag = lit name)) as [->|?];
  [ decide_tags; cbn [orb];
    let n := fresh "name" in
    let H := fresh in
    intros [n H]%lemma; exists n; rewrite H; apply bind_Err
  | rewrite (bool_decide_eq_false_2 (tag = lit name)) by done; cbn [orb] ].

(** A block that lacks a field its renderer requires is not rendered: the
    attribute access raises. *)
Lemma lacking_block_raises block index message depth :
  lacks_required_field block = true →
  ∃ name, _render_block block index message depth = Err (AttributeError name).
Proof.
  unfold lacks_required_field, _render_block.
  destruct (Block.type block) as [tag|]; [|raises_attribute_error].
  rewrite getattr_Some, bind_Ok. cbv zeta.
  at_tag tag "text"%string (text_lacking block message).
  at_tag tag "tool_use"%string (tool_use_lacking block).
  at_tag tag "tool_result"%string (tool_result_lacking block).
  at_tag tag "server_tool_use"%string (server_tool_use_lacking block).
  at_tag tag "web_search_tool_result"%string (web_search_lacking block depth).
  at_tag tag "image"%string (image_lacking block).
  at_tag tag "thinking"%string (thinking_lacking block).
  at_tag tag "document"%string (document_lacking block).
  discriminate.
Qed.

Lemma enumerate_split {A} (l : list A) l1 (p : nat * A) l2 :
  enumerate l = l1 ++ p :: l2 →
  p.1 = length l1 ∧ l !! length l1 = Some p.2
  ∧ ∀ k x, k < length l1 → l !! k = Some x → l1 !! k = Some (k, x).
Proof.
  intros Hl.
  assert (enumerate l !! length l1 = Some p) as Hp by by rewrite Hl, list_lookup_middle.
  rewrite enumerate_lookup in Hp.
  destruct (l !! length l1) as [x|]; [|done]. injection Hp as <-.
  split_and!; [done..|].
  intros k y Hk Hy.
  assert (enumerate l !! k = Some (k, y)) as Hky by by rewrite enumerate_lookup, Hy.
  by rewrite Hl, lookup_app_l in Hky.
Qed.

(** C7. If a segment of a message lacks a field its renderer requires, the
    call ends with an exception and the display is left as it was: nothing is
    shown, not even for the segments before it.  The exception is the one of
    the first segment that fails to render, which is at or before the
    lacking one; when it is the lacking segment itself, the exception is its
    [AttributeError]. *)
Theorem missing_field_aborts (message : Message.t) (sink : Sink) (i : nat) (block : Block.t) :
  Message.content message !! i = Some block →
  lacks_required_field block = true →
  ∃ e j failing,
    visualize_message message sink = (Err e, sink)
    ∧ j ≤ i
    ∧ Message.content message !! j = Some failing
    ∧ _render_block failing j (Some message) 0 = Err e
    ∧ (∀ k earlier, k < j → Message.content message !! k = Some earlier →
         is_ok (_render_block earlier k (Some message) 0) = true)
    ∧ (j = i → ∃ name, e = AttributeError name).
Proof.
  intros Hi [name Hraises]%(lacking_block_raises block i (Some message) 0).
  destruct (first_failure (render_segment message) (enumerate (Message.content message)))
    as [[fragments H]|(l1 & [j failing] & l2 & e & Hl & H1 & Hp)].
  { destruct (Forall2_lookup_l _ _ _ i (i, block) H) as (fragment & _ & Hr).
    { by rewrite enumerate_lookup, Hi. }
    unfold render_segment in Hr. simpl in Hr. by rewrite Hraises in Hr. }
  destruct (enumerate_split _ _ _ _ Hl) as (Hj & Hfailing & Hearlier).
  simpl in Hj, Hfailing. subst j.
  exists e, (length l1), failing.
  assert (∀ k earlier, k < length l1 → Message.content message !! k = Some earlier →
    is_ok (_render_block earlier k (Some message) 0) = true) as Hok.
  { intros k earlier Hk Hk'. apply (Hearlier _ _ Hk) in Hk'.
    by apply (proj1 (Forall_lookup _ _) H1 _ _) in Hk'. }
  split_and!; [| |done|exact Hp|done|].
  - unfold visualize_message. by rewrite (_build_html_raises _ _ _ _ _ Hl H1 Hp).
  - destruct (decide (length l1 ≤ i)) as [|Hlt]; [done|].
    apply Hok in Hi; [|lia]. by rewrite Hraises in Hi.
  - intros Hji. rewrite Hji in Hfailing, Hp.
    rewrite Hi in Hfailing. injection Hfailing as <-.
    unfold render_segment in Hp. simpl in Hp. rewrite Hraises in Hp.
    injection Hp as <-. by exists name.
Qed.

(** In the sample, the second block lacks [thinking]: nothing is shown,
    although the first block renders. *)
Lemma missing_field_aborts_witness :
  ∃ e j failing,
    visualize_message Sample.broken [] = (Err e, [])
    ∧ j ≤ 1
    ∧ Message.content Sample.broken !! j = Some failing
    ∧ _render_block failing j (Some Sample.broken) 0 = Err e
    ∧ (∀ k earlier, k < j → Message.content Sample.broken !! k = Some earlier →
         is_ok (_render_block earlier k (Some Sample.broken) 0) = true)
    ∧ (j = 1 → ∃ name, e = AttributeError name).
Proof.
  apply (missing_field_aborts Sample.broken [] 1 (Sample.bare "thinking")).
  - reflexivity.
  - vm_compute. reflexivity.
Defined.

(** ** Citations *)

Lemma citation_number_label index_of idx citation :
  citation_number index_of idx citation = label index_of idx citation.
Proof.
  unfold citation_number, label.
  destruct (Citation.url citation) as [url|]; simpl; [|lia].
  destruct (index_of !! url); simpl; lia.
Qed.

Lemma citation_entry_label index_of idx citation :
  citation_entry index_of idx citation
  = match Citation.cited_text citation with
    | Some cited_text => citation_html (label index_of idx citation) (truncated cited_text)
    | None => []
    end.
Proof.
  unfold citation_entry. destruct (Citation.cited_text citation); [|done].
  cbv zeta. by rewrite citation_number_label.
Qed.

(** The citation loop appends one entry per position, in order. *)
Lemma citation_info_entries index_of (citations : list Citation.t) :
  citation_info index_of citations = concat (imap (citation_entry index_of) citations).
Proof.
  unfold citation_info, enumerate.
  enough (∀ (h : nat → nat) (acc : str),
    foldl (λ citation_info '(idx, citation),
        citation_info ++ citation_entry index_of idx citation) acc
      (imap (λ i c, (h i, c)) citations)
    = acc ++ concat (imap (λ i c, citation_entry index_of (h i) c) citations)) as H.
  { apply (H id []). }
  induction citations as [|c citations IH]; intros h acc.
  - by rewrite app_nil_r.
  - cbn [imap foldl concat]. rewrite (IH (h ∘ S)). by rewrite <-app_assoc.
Qed.

Lemma citation_info_app index_of (before after : list Citation.t) :
  citation_info index_of (before ++ after)
  = citation_info index_of before
    ++ concat (imap (λ i, citation_entry index_of (length before + i)) after).
Proof. by rewrite !citation_info_entries, imap_app, concat_app. Qed.

(** ** The URL-to-index map *)

Lemma elem_of_enumerate {A} (l : list A) (i : nat) (x : A) :
  (i, x) ∈ enumerate l ↔ l !! i = Some x.
Proof.
  rewrite list_elem_of_lookup. split.
  - intros [j Hj]. rewrite enumerate_lookup in Hj.
    destruct (l !! j) eqn:Hl; [|done]. by injection Hj as <- <-.
  - intros Hi. exists i. by rewrite enumerate_lookup, Hi.
Qed.

Lemma url_to_index_turns (message : Message.t) :
  url_to_index (Some message) = for_each index_turn (Message.content message) ∅.
Proof. reflexivity. Qed.

Lemma index_turn_ok index_of block index_of' :
  index_turn index_of block = Ok index_of' →
  index_of' = index_results index_of (indexed_results block).
Proof.
  unfold index_turn, indexed_results.
  destruct (bool_decide _); [|by intros [= <-]].
  destruct (Block.content block) as [[s|l|repr iterable]|]; [..|done].
  - by intros [= <-].
  - by intros [= <-].
  - simpl. destruct iterable; [by intros [= <-]|done].
Qed.

Lemma index_results_app index_of l1 l2 :
  index_results index_of (l1 ++ l2) = index_results (index_results index_of l1) l2.
Proof. apply foldl_app. Qed.

(** When the map is built, it is what recording the results of all the
    segments, in order, leaves. *)
Lemma url_to_index_ok (message : Message.t) index_of :
  url_to_index (Some message) = Ok index_of →
  index_of = index_results ∅ (Message.content message ≫= indexed_results).
Proof.
  rewrite url_to_index_turns. generalize (∅ : gmap str nat).
  induction (Message.content message) as [|block blocks IH]; intros acc; simpl.
  - by intros [= <-].
  - destruct (index_turn acc block) as [acc'|] eqn:Hturn; [|done].
    rewrite bind_Ok. intros ->%IH. apply index_turn_ok in Hturn as ->.
    by rewrite index_results_app.
Qed.

(** Every entry comes from the map before or from a recorded result, at its
    position plus one. *)
Lemma index_results_lookup index_of results url number :
  index_results index_of results !! url = Some number →
  index_of !! url = Some number
  ∨ ∃ idx result, (idx, result) ∈ results ∧ Item.url result = Some url
      ∧ number = idx + 1.
Proof.
  revert index_of. induction results as [|[idx result] results IH]; intros index_of.
  - by left.
  - simpl. intros [H|(idx' & result' & Hin & Hurl & ->)]%IH.
    + destruct (Item.url result) as [url'|] eqn:Hurl; [|by left].
      destruct (decide (url' = url)) as [->|Hne].
      * rewrite lookup_insert_eq in H. injection H as <-.
        right. exists idx, result. split_and!; [left|done..].
      * rewrite lookup_insert_ne in H by done. by left.
    + right. exists idx', result'. split_and!; [by right|done..].
Qed.

(** Every recorded URL has an entry. *)
Lemma index_results_is_Some index_of results url :
  is_Some (index_of !! url)
  ∨ (∃ idx result, (idx, result) ∈ results ∧ Item.url result = Some url) →
  is_Some (index_results index_of results !! url).
Proof.
  revert index_of. induction results as [|[idx result] results IH]; intros index_of.
  - intros [H|(idx & result & Hin & _)]; [done|]. by apply not_elem_of_nil in Hin.
  - simpl. intros [H|(idx' & result' & Hin & Hurl)]; apply IH.
    + left. destruct (Item.url result) as [url'|]; [|done].
      destruct (decide (url' = url)) as [->|Hne].
      * rewrite lookup_insert_eq. eauto.
      * by rewrite lookup_insert_ne.
    + apply elem_of_cons in Hin as [[= -> ->]|Hin].
      * left. rewrite Hurl, lookup_insert_eq. eauto.
      * right. eauto.
Qed.

Lemma elem_of_indexed_results (message : Message.t) idx result :
  (idx, result) ∈ Message.content message ≫= indexed_results ↔
  ∃ block results, block ∈ Message.content message
    ∧ Block.type block = Some (lit "web_search_tool_result")
    ∧ Block.content block = Some (ContentList results)
    ∧ results !! idx = Some result.
Proof.
  rewrite list_elem_of_bind. unfold indexed_results. split.
  - intros (block & Hin & Hblock). case_bool_decide as Htype; [|by apply not_elem_of_nil in Hin].
    destruct (Block.content block) as [[s|results|repr iterable]|] eqn:Hc;
      try by apply not_elem_of_nil in Hin.
    apply elem_of_enumerate in Hin. eauto 10.
  - intros (block & results & Hblock & Htype & Hc & Hidx). exists block.
    rewrite bool_decide_eq_true_2, Hc by done. by rewrite elem_of_enumerate.
Qed.

(** The entries of the map are 1-based positions of search results with that
    URL. *)
Lemma url_to_index_entry (message : Message.t) index_of url number :
  url_to_index (Some message) = Ok index_of →
  index_of !! url = Some number →
  ∃ n, number = n + 1 ∧ is_search_result_at message url n.
Proof.
  intros -> %url_to_index_ok [H|(idx & result & Hin & Hurl & ->)]%index_results_lookup.
  { by rewrite lookup_empty in H. }
  apply elem_of_indexed_results in Hin as (block & results & ? & ? & ? & ?).
  exists idx. split; [done|]. exists block, results, result. done.
Qed.

(** The URL of every search result has an entry. *)
Lemma url_to_index_is_Some (message : Message.t) index_of url n :
  url_to_index (Some message) = Ok index_of →
  is_search_result_at message url n →
  is_Some (index_of !! url).
Proof.
  intros -> %url_to_index_ok (block & results & result & ? & ? & ? & ? & ?).
  apply index_results_is_Some. right. exists n, result. split; [|done].
  apply elem_of_indexed_results. eauto 10.
Qed.

Lemma _render_text_block_cited block message text citations index_of :
  Block.text block = Some text →
  Block.citations block = Some citations →
  citations ≠ [] →
  url_to_index message = Ok index_of →
  _render_text_block block message
  = Ok (cited_text_html text (concat (imap (citation_entry index_of) citations))).
Proof.
  intros Htext Hcitations Hne Hindex. unfold _render_text_block.
  rewrite Htext, getattr_Some, bind_Ok, Hcitations. cbv zeta.
  destruct citations as [|citation citations]; [done|].
  by rewrite Hindex, bind_Ok, citation_info_entries.
Qed.

(** *** What the reader sees of a citation *)

(** An excerpt shows its number in square brackets, followed by the quoted
    text. *)
Lemma citation_html_shows (number : nat) (excerpt : str) :
  contains (citation_html number excerpt) (shown_citation number excerpt).
Proof.
  unfold citation_html, shown_citation.
  apply contains_embed; [literal_suffix|literal_prefix].
Qed.

Lemma citation_entry_shows index_of idx citation cited_text :
  Citation.cited_text citation = Some cited_text →
  contains (citation_entry index_of idx citation)
    (shown_citation (citation_number index_of idx citation) (truncated cited_text)).
Proof.
  intros Hq. unfold citation_entry. rewrite Hq. cbv zeta. apply citation_html_shows.
Qed.

Lemma citation_info_shows index_of (citations : list Citation.t) idx citation :
  citations !! idx = Some citation →
  contains (citation_info index_of citations) (citation_entry index_of idx citation).
Proof.
  intros Hidx. rewrite citation_info_entries. apply contains_concat.
  apply list_elem_of_lookup. exists idx. by rewrite list_lookup_imap, Hidx.
Qed.

(** The rendering of a text with citations shows its excerpts. *)
Lemma cited_text_html_shows (text citation_info : str) :
  contains (cited_text_html text citation_info) citation_info.
Proof.
  unfold cited_text_html. do 3 apply contains_app_r. by eexists [], _.
Qed.

Lemma rendered_citation_shows block message text citations index_of idx citation
    cited_text :
  Block.text block = Some text →
  Block.citations block = Some citations →
  url_to_index message = Ok index_of →
  citations !! idx = Some citation →
  Citation.cited_text citation = Some cited_text →
  ∃ html,
    _render_text_block block message = Ok html
    ∧ contains html
        (shown_citation (citation_number index_of idx citation) (truncated cited_text)).
Proof.
  intros Htext Hcitations Hindex Hidx Hq.
  assert (citations ≠ []) as Hne by (by intros ->).
  rewrite (_render_text_block_cited _ _ _ _ _ Htext Hcitations Hne Hindex).
  eexists. split; [reflexivity|]. rewrite <-citation_info_entries.
  eapply contains_trans; [apply cited_text_html_shows|].
  eapply contains_trans; [by apply citation_info_shows|].
  by apply citation_entry_shows.
Qed.

(** C2. A text segment with citations renders as its text followed by one
    numbered excerpt per citation that has a [cited_text]; the number is the
    entry of the URL-to-index map for the citation's URL when there is one,
    else the 1-based position of the citation in the segment's list, and the
    rendered document shows that number in square brackets before the quoted
    excerpt.  The entries of the map are the 1-based positions of the web
    search results of the message. *)
Theorem citation_labels (block : Block.t) (message : Message.t)
    (text : str) (citations : list Citation.t) (index_of : gmap str nat) :
  Block.text block = Some text →
  Block.citations block = Some citations →
  citations ≠ [] →
  url_to_index (Some message) = Ok index_of →
  ∃ html,
    _render_text_block block (Some message) = Ok html
    ∧ html = cited_text_html text (concat (imap (λ idx citation,
        match Citation.cited_text citation with
        | Some cited_text =>
            citation_html (label index_of idx citation) (truncated cited_text)
        | None => []
        end) citations))
    ∧ (∀ idx citation cited_text,
         citations !! idx = Some citation →
         Citation.cited_text citation = Some cited_text →
         contains html
           (shown_citation (label index_of idx citation) (truncated cited_text)))
    ∧ ∀ url number, index_of !! url = Some number →
        ∃ n, number = n + 1 ∧ is_search_result_at message url n.
Proof.
  intros Htext Hcitations Hne Hindex.
  rewrite (_render_text_block_cited _ _ _ _ _ Htext Hcitations Hne Hindex).
  eexists. split; [reflexivity|]. split_and!.
  - do 2 f_equal. apply imap_ext. intros idx citation _. apply citation_entry_label.
  - intros idx citation cited_text Hidx Hq.
    destruct (rendered_citation_shows _ _ _ _ _ _ _ _ Htext Hcitations Hindex Hidx Hq)
      as (html & Hhtml & Hshown).
    rewrite (_render_text_block_cited _ _ _ _ _ Htext Hcitations Hne Hindex) in Hhtml.
    apply (inj Ok) in Hhtml as <-. by rewrite <-citation_number_label.
  - intros url number. by apply url_to_index_entry.
Qed.

(** The sample text cites the second of three results: its first excerpt is
    numbered from the map, its third by position. *)
Lemma citation_labels_witness :
  ∃ html,
    _render_text_block Sample.citing_block (Some Sample.cited) = Ok html
    ∧ html = cited_text_html (lit "The answer.") (concat (imap (λ idx citation,
        match Citation.cited_text citation with
        | Some cited_text =>
            citation_html (label Sample.index idx citation) (truncated cited_text)
        | None => []
        end) [
          Citation.mk (Some (lit "from the second page")) (Some (lit "u2"));
          Citation.mk None None;
          Citation.mk (Some (lit "from elsewhere")) None ]))
    ∧ (∀ idx citation cited_text,
         [ Citation.mk (Some (lit "from the second page")) (Some (lit "u2"));
           Citation.mk None None;
           Citation.mk (Some (lit "from elsewhere")) None ] !! idx = Some citation →
         Citation.cited_text citation = Some cited_text →
         contains html
           (shown_citation (label Sample.index idx citation) (truncated cited_text)))
    ∧ ∀ url number, Sample.index !! url = Some number →
        ∃ n, number = n + 1 ∧ is_search_result_at Sample.cited url n.
Proof.
  apply (citation_labels Sample.citing_block Sample.cited).
  - reflexivity.
  - reflexivity.
  - discriminate.
  - vm_compute. reflexivity.
Defined.

(** The second specification example: with results at [u1], [u2], [u3], a
    citation of [u2] is labelled 2 wherever it stands; without a URL it is
    labelled by position. *)
Example label_of_second_result :
  label Sample.index 0 (Citation.mk (Some (lit "q")) (Some (lit "u2"))) = 2
  ∧ label Sample.index 6 (Citation.mk (Some (lit "q")) (Some (lit "u2"))) = 2
  ∧ label Sample.index 6 (Citation.mk (Some (lit "q")) (Some (lit "u9"))) = 7
  ∧ label Sample.index 2 (Citation.mk (Some (lit "q")) None) = 3.
Proof. vm_compute. done. Qed.

(** C3. The number of a URL is fixed for the whole message: when the map of
    the message is built and [url] belongs to one of its web search results,
    there is one number such that every text segment with citations renders
    with the entries of that same map, and for every citation of [url], at
    any position of any such segment, the rendered document shows that
    number in square brackets before the quoted excerpt. *)
Theorem stable_numbering (message : Message.t) (index_of : gmap str nat) (url : str) (n : nat) :
  url_to_index (Some message) = Ok index_of →
  is_search_result_at message url n →
  ∃ number,
    ∀ block text citations,
      Block.text block = Some text →
      Block.citations block = Some citations →
      citations ≠ [] →
      ∃ html,
        _render_text_block block (Some message) = Ok html
        ∧ html = cited_text_html text (concat (imap (citation_entry index_of) citations))
        ∧ ∀ idx citation cited_text,
            citations !! idx = Some citation →
            Citation.url citation = Some url →
            Citation.cited_text citation = Some cited_text →
            citation_entry index_of idx citation
            = citation_html number (truncated cited_text)
            ∧ contains html (shown_citation number (truncated cited_text)).
Proof.
  intros Hindex Hurl.
  destruct (url_to_index_is_Some _ _ _ _ Hindex Hurl) as [number Hnumber].
  exists number. intros block text citations Htext Hcitations Hne.
  rewrite (_render_text_block_cited _ _ _ _ _ Htext Hcitations Hne Hindex).
  eexists. split; [reflexivity|]. split; [done|].
  intros idx citation cited_text Hidx Hc Hq.
  assert (citation_number index_of idx citation = number) as Hn.
  { unfold citation_number. by rewrite Hc, Hnumber. }
  split.
  - unfold citation_entry. by rewrite Hq, Hn.
  - destruct (rendered_citation_shows _ _ _ _ _ _ _ _ Htext Hcitations Hindex Hidx Hq)
      as (html & Hhtml & Hshown).
    rewrite (_render_text_block_cited _ _ _ _ _ Htext Hcitations Hne Hindex) in Hhtml.
    apply (inj Ok) in Hhtml as <-. by rewrite Hn in Hshown.
Qed.

Lemma stable_numbering_witness :
  ∃ number,
    ∀ block text citations,
      Block.text block = Some text →
      Block.citations block = Some citations →
      citations ≠ [] →
      ∃ html,
        _render_text_block block (Some Sample.cited) = Ok html
        ∧ html = cited_text_html text (concat (imap (citation_entry Sample.index) citations))
        ∧ ∀ idx citation cited_text,
            citations !! idx = Some citation →
            Citation.url citation = Some (lit "u2") →
            Citation.cited_text citation = Some cited_text →
            citation_entry Sample.index idx citation
            = citation_html number (truncated cited_text)
            ∧ contains html (shown_citation number (truncated cited_text)).
Proof.
  apply (stable_numbering Sample.cited Sample.index (lit "u2") 1).
  - vm_compute. reflexivity.
  - exists (Sample.search_block
      [Sample.search_result "u1"; Sample.search_result "u2"; Sample.search_result "u3"]),
      [Sample.search_result "u1"; Sample.search_result "u2"; Sample.search_result "u3"],
      (Sample.search_result "u2").
    split_and!; [|reflexivity..]. apply list_elem_of_here.
Defined.

(** C6. The excerpt of a citation with a [cited_text] is the text itself when
    it has at most 100 characters, and otherwise its first 100 characters
    followed by the three dots of the ellipsis; that excerpt, whole and
    between double quotes, follows the number of the citation in its entry
    and in the rendering of every text segment that has the citation. *)
Theorem excerpt_truncation (index_of : gmap str nat) (idx : nat) (citation : Citation.t)
    (cited_text : str) :
  Citation.cited_text citation = Some cited_text →
  citation_entry index_of idx citation
  = citation_html (citation_number index_of idx citation)
      (if decide (length cited_text ≤ 100) then cited_text
       else take 100 cited_text ++ [46; 46; 46]%N)
  ∧ contains (citation_entry index_of idx citation)
      (shown_citation (citation_number index_of idx citation)
         (if decide (length cited_text ≤ 100) then cited_text
          else take 100 cited_text ++ [46; 46; 46]%N))
  ∧ ∀ block message text citations,
      Block.text block = Some text →
      Block.citations block = Some citations →
      url_to_index message = Ok index_of →
      citations !! idx = Some citation →
      ∃ html,
        _render_text_block block message = Ok html
        ∧ contains html
            (shown_citation (citation_number index_of idx citation)
               (if decide (length cited_text ≤ 100) then cited_text
                else take 100 cited_text ++ [46; 46; 46]%N)).
Proof.
  intros Hq.
  assert (truncated cited_text
          = if decide (length cited_text ≤ 100) then cited_text
            else take 100 cited_text ++ [46; 46; 46]%N) as Htruncated.
  { unfold truncated. case_decide as Hle.
    - by rewrite (proj2 (Nat.ltb_ge _ _) Hle).
    - by rewrite (proj2 (Nat.ltb_lt 100 _)) by lia. }
  rewrite <-Htruncated. split_and!.
  - unfold citation_entry. by rewrite Hq.
  - by apply citation_entry_shows.
  - intros block message text citations Htext Hcitations Hindex Hidx.
    by eapply rendered_citation_shows.
Qed.

(** A quotation of 101 characters is cut after the hundredth. *)
Lemma excerpt_truncation_witness :
  citation_entry ∅ 0 (Citation.mk (Some (replicate 101 97%N)) None)
  = citation_html (citation_number ∅ 0 (Citation.mk (Some (replicate 101 97%N)) None))
      (if decide (length (replicate 101 97%N) ≤ 100) then replicate 101 97%N
       else take 100 (replicate 101 97%N) ++ [46; 46; 46]%N)
  ∧ contains (citation_entry ∅ 0 (Citation.mk (Some (replicate 101 97%N)) None))
      (shown_citation (citation_number ∅ 0 (Citation.mk (Some (replicate 101 97%N)) None))
         (if decide (length (replicate 101 97%N) ≤ 100) then replicate 101 97%N
          else take 100 (replicate 101 97%N) ++ [46; 46; 46]%N))
  ∧ ∀ block message text citations,
      Block.text block = Some text →
      Block.citations block = Some citations →
      url_to_index message = Ok ∅ →
      citations !! 0 = Some (Citation.mk (Some (replicate 101 97%N)) None) →
      ∃ html,
        _render_text_block block message = Ok html
        ∧ contains html
            (shown_citation
               (citation_number ∅ 0 (Citation.mk (Some (replicate 101 97%N)) None))
               (if decide (length (replicate 101 97%N) ≤ 100) then replicate 101 97%N
                else take 100 (replicate 101 97%N) ++ [46; 46; 46]%N)).
Proof.
  apply (excerpt_truncation ∅ 0 (Citation.mk (Some (replicate 101 97%N)) None)).
  reflexivity.
Defined.

(** The fourth specification example, at the boundary. *)
Example excerpt_at_the_boundary :
  truncated (replicate 101 97%N) = replicate 100 97%N ++ lit "..."
  ∧ truncated (replicate 100 97%N) = replicate 100 97%N.
Proof. vm_compute. done. Qed.

(** C10. A citation without a [cited_text] adds nothing to the rendering but
    keeps its place in the enumeration: after it, a citation that falls back
    to its position is numbered by the count of all the citations before it,
    the skipped one included, plus one, and so are the later ones; the
    rendering of a text segment with these citations shows that number in
    square brackets before the quoted excerpt. *)
Theorem skipped_citations_keep_their_position (index_of : gmap str nat)
    (before after : list Citation.t) (skipped citation : Citation.t) (cited_text : str) :
  Citation.cited_text skipped = None →
  Citation.cited_text citation = Some cited_text →
  (url ← Citation.url citation; index_of !! url) = None →
  citation_info index_of (before ++ skipped :: citation :: after)
  = citation_info index_of before
    ++ citation_html (length before + 2) (truncated cited_text)
    ++ concat (imap (λ i, citation_entry index_of (length before + 2 + i)) after)
  ∧ contains (citation_info index_of (before ++ skipped :: citation :: after))
      (shown_citation (length before + 2) (truncated cited_text))
  ∧ ∀ block message text,
      Block.text block = Some text →
      Block.citations block = Some (before ++ skipped :: citation :: after) →
      url_to_index message = Ok index_of →
      ∃ html,
        _render_text_block block message = Ok html
        ∧ contains html (shown_citation (length before + 2) (truncated cited_text)).
Proof.
  intros Hskipped Hq Hfallback.
  assert (citation_number index_of (length before + 1) citation = length before + 2)
    as Hnumber.
  { rewrite citation_number_label. unfold label. rewrite Hfallback. simpl. lia. }
  assert ((before ++ skipped :: citation :: after) !! (length before + 1) = Some citation)
    as Hidx.
  { rewrite lookup_app_r by lia.
    by replace (length before + 1 - length before) with 1 by lia. }
  split_and!.
  - rewrite citation_info_app. cbn [imap concat]. f_equal. cbv [compose].
    rewrite (citation_entry_label _ _ skipped), Hskipped.
    rewrite (citation_entry_label _ _ citation), Hq. unfold label at 1.
    rewrite Hfallback. cbn [default app].
    replace (S (length before + 1)) with (length before + 2) by lia.
    do 2 f_equal. apply imap_ext. intros i c _. f_equal. lia.
  - eapply contains_trans; [by apply citation_info_shows|].
    rewrite <-Hnumber. by apply citation_entry_shows.
  - intros block message text Htext Hcitations Hindex. rewrite <-Hnumber.
    by eapply rendered_citation_shows.
Qed.

(** In the sample list the citation without a quoted text is at position 1,
    and the one after it is numbered 3, not 2. *)
Lemma skipped_citations_keep_their_position_witness :
  citation_info Sample.index
    ([Citation.mk (Some (lit "from the second page")) (Some (lit "u2"))]
     ++ Citation.mk None None :: Citation.mk (Some (lit "from elsewhere")) None :: [])
  = citation_info Sample.index
      [Citation.mk (Some (lit "from the second page")) (Some (lit "u2"))]
    ++ citation_html (1 + 2) (truncated (lit "from elsewhere"))
    ++ concat (imap (λ i, citation_entry Sample.index (1 + 2 + i)) [])
  ∧ contains
      (citation_info Sample.index
         ([Citation.mk (Some (lit "from the second page")) (Some (lit "u2"))]
          ++ Citation.mk None None :: Citation.mk (Some (lit "from elsewhere")) None :: []))
      (shown_citation (1 + 2) (truncated (lit "from elsewhere")))
  ∧ ∀ block message text,
      Block.text block = Some text →
      Block.citations block
      = Some ([Citation.mk (Some (lit "from the second page")) (Some (lit "u2"))]
              ++ Citation.mk None None
                 :: Citation.mk (Some (lit "from elsewhere")) None :: []) →
      url_to_index message = Ok Sample.index →
      ∃ html,
        _render_text_block block message = Ok html
        ∧ contains html (shown_citation (1 + 2) (truncated (lit "from elsewhere"))).
Proof.
  apply (skipped_citations_keep_their_position Sample.index
    [Citation.mk (Some (lit "from the second page")) (Some (lit "u2"))] []
    (Citation.mk None None) (Citation.mk (Some (lit "from elsewhere")) None)
    (lit "from elsewhere")).
  - reflexivity.
  - reflexivity.
  - reflexivity.
Defined.

Example unquoted_citation_is_counted :
  citation_info ∅ [Citation.mk None None; Citation.mk (Some (lit "q")) None]
  = citation_html 2 (lit "q").
Proof. vm_compute. reflexivity. Qed.

(** ** Text segments *)

Lemma lstrip_nil (s : str) : lstrip s = [] ↔ blank s = true.
Proof.
  unfold blank. induction s as [|c s IH]; simpl; [done|].
  destruct (isspace c); simpl; [done|]. split; discriminate.
Qed.

Lemma lstrip_blank (s : str) : blank (lstrip s) = true → lstrip s = [].
Proof.
  unfold blank. induction s as [|c s IH]; simpl; [done|].
  destruct (isspace c) eqn:Hc; [done|]. simpl. by rewrite Hc.
Qed.

Lemma blank_reverse (s : str) : blank (reverse s) = blank s.
Proof.
  unfold blank. apply eq_true_iff_eq.
  rewrite !forallb_forall. setoid_rewrite <-list_elem_of_In.
  by setoid_rewrite elem_of_reverse.
Qed.

(** [text.strip() == ""] says that the text is blank. *)
Lemma strip_nil (s : str) : strip s = [] ↔ blank s = true.
Proof.
  unfold strip, rstrip. split.
  - intros H. apply lstrip_nil, lstrip_blank.
    rewrite <-blank_reverse. apply lstrip_nil.
    apply (f_equal reverse) in H. by rewrite reverse_involutive in H.
  - intros ->%lstrip_nil. done.
Qed.

Lemma is_empty_blank (text : str) :
  bool_decide (text = []) || bool_decide (strip text = []) = blank text.
Proof.
  destruct (blank text) eqn:Hb.
  - apply strip_nil in Hb. rewrite (bool_decide_eq_true_2 (strip text = [])) by done.
    apply orb_true_r.
  - rewrite (bool_decide_eq_false_2 (strip text = [])).
    + rewrite orb_false_r. apply bool_decide_eq_false_2. by intros ->.
    + rewrite strip_nil. by rewrite Hb.
Qed.

(** The rendering of a text segment, by cases. *)
Lemma _render_text_block_cases block message text :
  Block.text block = Some text →
  _render_text_block block message
  = if has_citations block then
      index_of ← url_to_index message;
      Ok (cited_text_html text (citation_info index_of (default [] (Block.citations block))))
    else if blank text then Ok empty_text_html
    else if decide (length text ≤ 1000) then Ok (plain_text_html text)
    else Ok (long_text_html text).
Proof.
  intros Htext. unfold _render_text_block, has_citations.
  rewrite Htext, getattr_Some, bind_Ok. cbv zeta. rewrite is_empty_blank.
  assert ((if blank text then Ok empty_text_html
           else if 1000 <? length text then Ok (long_text_html text)
           else Ok (plain_text_html text))
          = (if blank text then Ok empty_text_html
             else if decide (length text ≤ 1000) then Ok (plain_text_html text)
             else Ok (long_text_html text))) as ->.
  { destruct (blank text); [done|]. case_decide as Hle.
    - by rewrite (proj2 (Nat.ltb_ge _ _) Hle).
    - by rewrite (proj2 (Nat.ltb_lt 1000 _)) by lia. }
  by destruct (Block.citations block) as [[|citation citations]|].
Qed.

(** Two renderings that differ before their first hole are different. *)
Lemma differ_in_prefix (k : nat) (a a' b b' : str) :
  k ≤ length a → k ≤ length b → take k a ≠ take k b → a ++ a' ≠ b ++ b'.
Proof.
  intros Ha Hb Hne H. apply Hne.
  apply (f_equal (take k)) in H. by rewrite !take_app_le in H.
Qed.

Ltac differ_at k :=
  apply (differ_in_prefix k);
  [ vm_compute; lia | vm_compute; lia
  | apply (bool_decide_eq_false_1 _); vm_compute; reflexivity ].

Lemma empty_is_not_plain text : empty_text_html ≠ plain_text_html text.
Proof.
  rewrite <-(app_nil_r empty_text_html). unfold empty_text_html, plain_text_html.
  differ_at 40.
Qed.

Lemma empty_is_not_long text : empty_text_html ≠ long_text_html text.
Proof.
  rewrite <-(app_nil_r empty_text_html). unfold empty_text_html, long_text_html.
  differ_at 40.
Qed.

Lemma cited_is_not_plain text citation_info :
  cited_text_html text citation_info ≠ plain_text_html text.
Proof. unfold cited_text_html, plain_text_html. differ_at 100. Qed.

Lemma cited_is_not_long text citation_info :
  cited_text_html text citation_info ≠ long_text_html text.
Proof. unfold cited_text_html, long_text_html. differ_at 40. Qed.

Lemma plain_is_not_long text : plain_text_html text ≠ long_text_html text.
Proof. unfold plain_text_html, long_text_html. differ_at 40. Qed.

Lemma cited_is_not_empty text citation_info :
  cited_text_html text citation_info ≠ empty_text_html.
Proof.
  rewrite <-(app_nil_r empty_text_html). unfold cited_text_html, empty_text_html.
  differ_at 40.
Qed.

Lemma contains_between (a x b rest l1 l2 : str) :
  (∃ before, a = before ++ l1) → (∃ after, b = l2 ++ after) →
  contains (a ++ x ++ b ++ rest) (l1 ++ x ++ l2).
Proof.
  intros [before ->] [after ->]. exists before, (after ++ rest).
  by rewrite <-!app_assoc.
Qed.

(** The long form is labelled with the number of characters. *)
Lemma long_text_html_count text :
  contains (long_text_html text)
    (lit "Long content (" ++ str_nat (length text) ++ lit " characters)").
Proof.
  unfold long_text_html. apply contains_between; [literal_suffix|].
  exists (lit " "). vm_compute. reflexivity.
Qed.

(** The long form is a [details] element without the [open] attribute: shut
    until the reader opens it. *)
Lemma long_text_html_collapsed text :
  ∃ rest, long_text_html text = lit "
        <details>
            <summary" ++ rest.
Proof.
  unfold long_text_html.
  match goal with
  | |- ∃ rest, ?a ++ ?tail = ?label ++ rest =>
      exists (drop (length label) a ++ tail); rewrite app_assoc; f_equal;
      vm_compute; reflexivity
  end.
Qed.

(** Both forms hold the text, whole, as the content of their element. *)
Lemma long_text_html_text text :
  contains (long_text_html text)
    (lit ">
" ++ text ++ lit "
            </div>
        </details>").
Proof.
  unfold long_text_html. do 4 apply contains_app_r.
  match goal with
  | |- contains (_ ++ _ ++ ?d) _ => rewrite <-(app_nil_r d)
  end.
  apply contains_between; [literal_suffix|literal_prefix].
Qed.

Lemma plain_text_html_text text :
  contains (plain_text_html text)
    (lit "white-space: pre-wrap;") ∧
  contains (plain_text_html text)
    (lit ">
" ++ text ++ lit "
        </div>").
Proof.
  unfold plain_text_html. split.
  - apply contains_app_l.
    match goal with
    | |- contains ?a ?label =>
        exists (take 91 a), (drop (91 + length label) a); vm_compute; reflexivity
    end.
  - match goal with
    | |- contains (_ ++ _ ++ ?d) _ => rewrite <-(app_nil_r d)
    end.
    apply contains_between; [literal_suffix|literal_prefix].
Qed.

(** C4, as the code has it.  A text segment without citations whose text is
    not blank renders in the long form when the text has more than 1000
    characters, so from 1001 on, and as plain preformatted text when it has
    at most 1000, so at exactly 1000.  The long form is a [details] element
    without the [open] attribute, so collapsed by default, labelled with the
    number of characters and holding the text; the plain form is an element
    that preserves white space and holds the text; the two are different. *)
Theorem long_text_threshold (block : Block.t) (message : option Message.t) (text : str) :
  Block.text block = Some text →
  has_citations block = false →
  blank text = false →
  _render_text_block block message
  = Ok (if decide (length text ≤ 1000) then plain_text_html text
        else long_text_html text)
  ∧ (∃ rest, long_text_html text = lit "
        <details>
            <summary" ++ rest)
  ∧ contains (long_text_html text)
      (lit "Long content (" ++ str_nat (length text) ++ lit " characters)")
  ∧ contains (long_text_html text)
      (lit ">
" ++ text ++ lit "
            </div>
        </details>")
  ∧ contains (plain_text_html text) (lit "white-space: pre-wrap;")
  ∧ contains (plain_text_html text)
      (lit ">
" ++ text ++ lit "
        </div>")
  ∧ plain_text_html text ≠ long_text_html text.
Proof.
  intros Htext Hcitations Hblank. split_and!.
  - rewrite (_render_text_block_cases _ _ _ Htext), Hcitations, Hblank.
    by case_decide.
  - apply long_text_html_collapsed.
  - apply long_text_html_count.
  - apply long_text_html_text.
  - apply plain_text_html_text.
  - apply plain_text_html_text.
  - apply plain_is_not_long.
Qed.

(** The fifth specification example: 1001 letters take the long form. *)
Lemma long_text_threshold_witness :
  _render_text_block (Sample.text_block (Sample.letters 1001) None) None
  = Ok (if decide (length (Sample.letters 1001) ≤ 1000)
        then plain_text_html (Sample.letters 1001)
        else long_text_html (Sample.letters 1001))
  ∧ (∃ rest, long_text_html (Sample.letters 1001) = lit "
        <details>
            <summary" ++ rest)
  ∧ contains (long_text_html (Sample.letters 1001))
      (lit "Long content (" ++ str_nat (length (Sample.letters 1001))
       ++ lit " characters)")
  ∧ contains (long_text_html (Sample.letters 1001))
      (lit ">
" ++ Sample.letters 1001 ++ lit "
            </div>
        </details>")
  ∧ contains (plain_text_html (Sample.letters 1001)) (lit "white-space: pre-wrap;")
  ∧ contains (plain_text_html (Sample.letters 1001))
      (lit ">
" ++ Sample.letters 1001 ++ lit "
        </div>")
  ∧ plain_text_html (Sample.letters 1001) ≠ long_text_html (Sample.letters 1001).
Proof.
  apply (long_text_threshold (Sample.text_block (Sample.letters 1001) None) None).
  - reflexivity.
  - reflexivity.
  - vm_compute. reflexivity.
Defined.

Example text_of_1000_is_plain :
  _render_text_block (Sample.text_block (Sample.letters 1000) None) None
  = Ok (plain_text_html (Sample.letters 1000)).
Proof. vm_compute. reflexivity. Qed.

Example text_of_1001_is_long :
  _render_text_block (Sample.text_block (Sample.letters 1001) None) None
  = Ok (long_text_html (Sample.letters 1001)).
Proof. vm_compute. reflexivity. Qed.

(** C4 as stated fails.  A text of 1001 letters with a citation renders as
    text with excerpts, not in the long form; a text of 1001 spaces renders
    as the empty placeholder, not in the long form; and a text of 1000
    letters with a citation does not render as plain text. *)
Lemma long_text_threshold_counterexample :
  length (Sample.letters 1001) = 1001
  ∧ _render_text_block (Sample.text_block (Sample.letters 1001) (Some [Sample.quote])) None
    ≠ Ok (long_text_html (Sample.letters 1001))
  ∧ length (Sample.spaces 1001) = 1001
  ∧ _render_text_block (Sample.text_block (Sample.spaces 1001) None) None
    ≠ Ok (long_text_html (Sample.spaces 1001))
  ∧ length (Sample.letters 1000) = 1000
  ∧ blank (Sample.letters 1000) = false
  ∧ _render_text_block (Sample.text_block (Sample.letters 1000) (Some [Sample.quote])) None
    ≠ Ok (plain_text_html (Sample.letters 1000)).
Proof.
  split_and!; try (vm_compute; reflexivity).
  - rewrite (_render_text_block_cases _ _ (Sample.letters 1001)) by done.
    intros H%(inj Ok). by apply cited_is_not_long in H.
  - rewrite (_render_text_block_cases _ _ (Sample.spaces 1001)) by done.
    intros H%(inj Ok). by apply empty_is_not_long in H.
  - rewrite (_render_text_block_cases _ _ (Sample.letters 1000)) by done.
    intros H%(inj Ok). by apply cited_is_not_plain in H.
Qed.

(** C5, as the code has it.  For a text segment whose text is blank: without
    citations it renders as the empty placeholder; with citations it renders
    as the text followed by its excerpts; it never renders as plain text or
    in the long form. *)
Theorem blank_text_placeholder (block : Block.t) (message : option Message.t) (text : str) :
  Block.text block = Some text →
  blank text = true →
  _render_text_block block message
  = (if has_citations block then
       index_of ← url_to_index message;
       Ok (cited_text_html text
             (citation_info index_of (default [] (Block.citations block))))
     else Ok empty_text_html)
  ∧ _render_text_block block message ≠ Ok (plain_text_html text)
  ∧ _render_text_block block message ≠ Ok (long_text_html text).
Proof.
  intros Htext Hblank.
  rewrite (_render_text_block_cases _ _ _ Htext), Hblank.
  split_and!; [done| |].
  - destruct (has_citations block).
    + destruct (url_to_index message); [|done].
      rewrite bind_Ok. intros H%(inj Ok). by apply cited_is_not_plain in H.
    + intros H%(inj Ok). by apply empty_is_not_plain in H.
  - destruct (has_citations block).
    + destruct (url_to_index message); [|done].
      rewrite bind_Ok. intros H%(inj Ok). by apply cited_is_not_long in H.
    + intros H%(inj Ok). by apply empty_is_not_long in H.
Qed.

(** The sixth specification example: three spaces render as the empty
    placeholder. *)
Lemma blank_text_placeholder_witness :
  _render_text_block (Sample.text_block (Sample.spaces 3) None) None
  = (if has_citations (Sample.text_block (Sample.spaces 3) None) then
       index_of ← url_to_index None;
       Ok (cited_text_html (Sample.spaces 3)
             (citation_info index_of
                (default [] (Block.citations (Sample.text_block (Sample.spaces 3) None)))))
     else Ok empty_text_html)
  ∧ _render_text_block (Sample.text_block (Sample.spaces 3) None) None
    ≠ Ok (plain_text_html (Sample.spaces 3))
  ∧ _render_text_block (Sample.text_block (Sample.spaces 3) None) None
    ≠ Ok (long_text_html (Sample.spaces 3)).
Proof.
  apply (blank_text_placeholder (Sample.text_block (Sample.spaces 3) None) None).
  - reflexivity.
  - reflexivity.
Defined.

(** C5 as stated fails.  An empty text with a citation renders as text with
    excerpts, not as the empty placeholder. *)
Lemma blank_text_placeholder_counterexample :
  blank [] = true
  ∧ _render_text_block (Sample.text_block [] (Some [Sample.quote])) None
    = Ok (cited_text_html [] (citation_info ∅ [Sample.quote]))
  ∧ _render_text_block (Sample.text_block [] (Some [Sample.quote])) None
    ≠ Ok empty_text_html.
Proof.
  split_and!; [done|done|].
  rewrite (_render_text_block_cases _ _ []) by done.
  intros H%(inj Ok). by apply cited_is_not_empty in H.
Qed.

(** ** Serialization *)

Lemma serialization_fails_serialize obj msg :
  serialization_fails obj msg ↔ serialize obj = Raises msg.
Proof.
  unfold serialize. split.
  - intros [H|dumped H1 H2|fields H1 H2 H3|H1 H2 H3].
    + by rewrite H.
    + by rewrite H1.
    + by rewrite H1, H2.
    + by rewrite H1, H2.
  - destruct (PyObject.model_dump obj) as [[dumped|msg']|] eqn:H1.
    + intros H. by eapply conversion_not_encodable.
    + intros [= ->]. by apply conversion_raises.
    + destruct (PyObject.__dict__ obj) as [fields|] eqn:H2; intros H.
      * by eapply fields_not_encodable.
      * by apply object_not_encodable.
Qed.

Lemma reassociate_middle (h p s q d : str) :
  (h ++ (p ++ s ++ q)) ++ d = (h ++ p) ++ s ++ (q ++ d).
Proof. by rewrite <-!app_assoc. Qed.

Lemma reassociate_entry (h c1 e s c2 t : str) :
  (h ++ c1 ++ (e ++ s) ++ c2) ++ t = (h ++ c1 ++ e) ++ s ++ (c2 ++ t).
Proof. by rewrite <-!app_assoc. Qed.

Lemma unknown_tag (tag : str) (name : string) :
  tag ∉ known_tags → lit name ∈ known_tags → bool_decide (tag = lit name) = false.
Proof. intros Hunknown Hknown. apply bool_decide_eq_false_2. by intros ->. Qed.

Ltac known_tag := unfold known_tags; set_solver.

(** A block of an unknown variant renders through [_safe_json], whatever that
    returns. *)
Lemma _render_block_unknown block index message depth tag :
  Block.type block = Some tag →
  tag ∉ known_tags →
  ∃ before after,
    _render_block block index message depth
    = Ok (before ++ _safe_json (Block.py block) ++ after).
Proof.
  intros Htype Hunknown. unfold _render_block.
  rewrite Htype, getattr_Some, bind_Ok. cbv zeta.
  rewrite !(unknown_tag tag) by (done || known_tag).
  rewrite bind_Ok. rewrite reassociate_middle. by eexists _, _.
Qed.

Lemma tool_result_entries (html : str) (l : list Item.t) :
  foldl (λ html content_block,
    let html :=
      match Item.type content_block with
      | Some type => html ++ lit "<div style=`margin-bottom: 12px;`><strong>[" ++ type
                     ++ lit "]</strong></div>"
      | None => html
      end in
    html ++ _safe_json (Item.py content_block)) html l
  = html ++ concat (tool_result_entry <$> l).
Proof.
  revert html. induction l as [|content_block l IH]; intros html.
  - by rewrite app_nil_r.
  - cbn [foldl fmap list_fmap concat]. rewrite IH. unfold tool_result_entry.
    destruct (Item.type content_block); by rewrite <-?app_assoc.
Qed.

(** The sub-blocks of a tool result render through [_safe_json] too. *)
Lemma _render_tool_result_block_list block tool_use_id l content_block :
  Block.tool_use_id block = Some tool_use_id →
  Block.content block = Some (ContentList l) →
  content_block ∈ l →
  ∃ before after,
    _render_tool_result_block block
    = Ok (before ++ _safe_json (Item.py content_block) ++ after).
Proof.
  intros Hid Hcontent (l1 & l2 & ->)%list_elem_of_split.
  unfold _render_tool_result_block. cbv zeta.
  rewrite Hid, getattr_Some, bind_Ok, Hcontent, getattr_Some, bind_Ok.
  rewrite tool_result_entries, fmap_app, concat_app. cbn [fmap list_fmap concat].
  unfold tool_result_entry at 2.
  rewrite reassociate_entry. by eexists _, _.
Qed.



(** C8. When the serialization of an object fails, in any of its three
    attempts, [_safe_json] returns the placeholder that names the failure;
    and the rendering that asked for it goes on: a block of an unknown
    variant, and a tool result with the object among its sub-blocks, are
    rendered with the placeholder inside. *)
Theorem serialization_failure_is_recovered (obj : PyObject.t) (msg : str) :
  serialization_fails obj msg →
  _safe_json obj = lit "<Unable to serialize: " ++ msg ++ lit ">"
  ∧ (∀ block index message depth tag,
       Block.type block = Some tag → tag ∉ known_tags → Block.py block = obj →
       ∃ before after,
         _render_block block index message depth
         = Ok (before ++ (lit "<Unable to serialize: " ++ msg ++ lit ">") ++ after))
  ∧ (∀ block tool_use_id l content_block,
       Block.tool_use_id block = Some tool_use_id →
       Block.content block = Some (ContentList l) →
       content_block ∈ l → Item.py content_block = obj →
       ∃ before after,
         _render_tool_result_block block
         = Ok (before ++ (lit "<Unable to serialize: " ++ msg ++ lit ">") ++ after)).
Proof.
  intros Hfails%serialization_fails_serialize.
  assert (_safe_json obj = lit "<Unable to serialize: " ++ msg ++ lit ">") as Hsafe.
  { unfold _safe_json. by rewrite Hfails. }
  split_and!; [done| |].
  - intros block index message depth tag Htype Hunknown <-. rewrite <-Hsafe.
    by eapply _render_block_unknown.
  - intros block tool_use_id l content_block Hid Hcontent Hin <-. rewrite <-Hsafe.
    by eapply _render_tool_result_block_list.
Qed.

Lemma serialization_failure_is_recovered_witness :
  _safe_json Sample.unserializable
  = lit "<Unable to serialize: " ++ lit "Object of type set is not JSON serializable"
    ++ lit ">"
  ∧ (∀ block index message depth tag,
       Block.type block = Some tag → tag ∉ known_tags →
       Block.py block = Sample.unserializable →
       ∃ before after,
         _render_block block index message depth
         = Ok (before ++ (lit "<Unable to serialize: "
                 ++ lit "Object of type set is not JSON serializable" ++ lit ">") ++ after))
  ∧ (∀ block tool_use_id l content_block,
       Block.tool_use_id block = Some tool_use_id →
       Block.content block = Some (ContentList l) →
       content_block ∈ l → Item.py content_block = Sample.unserializable →
       ∃ before after,
         _render_tool_result_block block
         = Ok (before ++ (lit "<Unable to serialize: "
                 ++ lit "Object of type set is not JSON serializable" ++ lit ">") ++ after)).
Proof.
  apply (serialization_failure_is_recovered Sample.unserializable).
  eapply conversion_not_encodable; reflexivity.
Defined.

(** The ninth specification example: a block of an unknown variant is
    rendered, here with the placeholder, without raising. *)
Example unknown_block_is_rendered :
  is_ok (_render_block Sample.unknown_block 0 None 0) = true
  ∧ _safe_json (Block.py Sample.unknown_block)
    = lit "<Unable to serialize: Object of type set is not JSON serializable>".
Proof. vm_compute. done. Qed.

(** ** Search results *)

(** An entry that lacks nothing is rendered: to nothing when it is not
    tagged as a web search result. *)
Lemma render_search_entry_ok idx result :
  search_result_lacks_field result = false →
  ∃ entry, render_search_entry (idx, result) = Ok entry.
Proof.
  unfold search_result_lacks_field, render_search_entry, _render_individual_search_result.
  simpl fst. simpl snd.
  destruct (bool_decide _); [|by eexists].
  destruct (Item.title result), (Item.url result), (Item.page_age result),
    (Item.encrypted_content result); first [discriminate|intros _; by eexists].
Qed.

(** Of the fragments of the loop, those of the tagged entries are the nested
    entries; the others are empty. *)
Lemma nested_entries (results : list (nat * Item.t)) (fragments : list str) :
  Forall2 (λ p r, render_search_entry p = Ok r) results fragments →
  ∃ entries,
    concat fragments = concat entries
    ∧ Forall2 (λ p entry, _render_individual_search_result p.2 p.1 = Ok entry)
        (filter tagged results) entries.
Proof.
  induction 1 as [|p r results fragments Hp _ (entries & Hconcat & Hentries)].
  - exists []. split; [done|constructor].
  - unfold render_search_entry in Hp. case_bool_decide as Htag.
    + exists (r :: entries). rewrite filter_cons_True by done.
      split; [by rewrite !concat_cons, Hconcat | by constructor].
    + exists entries. rewrite filter_cons_False by done.
      apply (inj Ok) in Hp as <-. done.
Qed.

Lemma search_results_html_count n :
  contains (search_results_html n) (str_nat n ++ lit " results").
Proof.
  unfold search_results_html. apply contains_app_r.
  exists [], (drop 8 (lit " results
        </span>
    </div>
    ")).
  rewrite app_nil_l, <-app_assoc. f_equal.
Qed.

(** C9. The count shown for a web search segment is the length of its
    content list, whatever the tags of the entries; the nested entries are
    those of the results tagged [web_search_result], in order.  So the
    count is at least the number of nested entries, and greater as soon as
    one entry carries another tag. *)
Theorem result_count_counts_every_entry (block : Block.t) (depth : nat)
    (results : list Item.t) :
  Block.content block = Some (ContentList results) →
  Forall (λ result, search_result_lacks_field result = false) results →
  ∃ entries,
    _render_web_search_result_block block depth
    = Ok (search_results_html (length results) ++ concat entries)
    ∧ contains (search_results_html (length results))
        (str_nat (length results) ++ lit " results")
    ∧ Forall2 (λ p entry, _render_individual_search_result p.2 p.1 = Ok entry)
        (filter tagged (enumerate results)) entries
    ∧ length entries ≤ length results
    ∧ (Exists (λ result, Item.type result ≠ Some (lit "web_search_result")) results →
       length entries < length results).
Proof.
  intros Hcontent Hresults.
  rewrite (_render_web_search_result_block_list _ _ _ Hcontent).
  destruct (first_failure render_search_entry (enumerate results))
    as [[fragments H]|(l1 & [idx result] & l2 & e & Hl & _ & Hp)].
  - destruct (nested_entries _ _ H) as (entries & Hconcat & Hentries).
    exists entries.
    assert (length entries = length (filter tagged (enumerate results))) as Hlength.
    { symmetry. by eapply Forall2_length. }
    split_and!.
    + rewrite <-Hconcat. by apply (for_each_appends render_search_entry).
    + apply search_results_html_count.
    + done.
    + rewrite Hlength, <-(enumerate_length results). apply length_filter.
    + intros (result & Hin & Htag)%Exists_exists.
      apply list_elem_of_lookup in Hin as [idx Hidx].
      rewrite Hlength, <-(enumerate_length results).
      apply (length_filter_lt _ _ (idx, result)); [|done].
      by apply elem_of_enumerate.
  - destruct (enumerate_split _ _ _ _ Hl) as (_ & Hresult & _). simpl in Hresult.
    apply (proj1 (Forall_lookup _ _) Hresults) in Hresult.
    destruct (render_search_entry_ok idx result Hresult) as [entry Hentry].
    by rewrite Hentry in Hp.
Qed.

(** With a web search result and a note in the list, the count shown is 2
    and there is one nested entry. *)
Lemma result_count_counts_every_entry_witness :
  ∃ entries,
    _render_web_search_result_block (Sample.search_block Sample.mixed_results) 0
    = Ok (search_results_html (length Sample.mixed_results) ++ concat entries)
    ∧ contains (search_results_html (length Sample.mixed_results))
        (str_nat (length Sample.mixed_results) ++ lit " results")
    ∧ Forall2 (λ p entry, _render_individual_search_result p.2 p.1 = Ok entry)
        (filter tagged (enumerate Sample.mixed_results)) entries
    ∧ length entries ≤ length Sample.mixed_results
    ∧ (Exists (λ result, Item.type result ≠ Some (lit "web_search_result"))
         Sample.mixed_results →
       length entries < length Sample.mixed_results).
Proof.
  apply (result_count_counts_every_entry (Sample.search_block Sample.mixed_results) 0).
  - reflexivity.
  - repeat constructor.
Defined.

Example count_exceeds_entries :
  ∃ entry,
    _render_web_search_result_block (Sample.search_block Sample.mixed_results) 0
    = Ok (search_results_html 2 ++ entry)
    ∧ _render_individual_search_result (Sample.search_result "u1") 0 = Ok entry.
Proof. eexists. split; vm_compute; reflexivity. Qed.

(** * Further properties of the visualizer *)

(** ** The call as a whole *)

(** X1. [visualize_message] is all or nothing: either every segment renders
    and exactly one document is added to the display, or the call ends with
    the exception of some segment and the display is left as it was. *)
Theorem visualize_message_all_or_nothing (message : Message.t) (sink : Sink) :
  (∃ doc, visualize_message message sink = (Ok (), sink ++ [doc])
     ∧ ∀ i block, Message.content message !! i = Some block →
         is_ok (_render_block block i (Some message) 0) = true)
  ∨ (∃ e i block, visualize_message message sink = (Err e, sink)
       ∧ Message.content message !! i = Some block
       ∧ _render_block block i (Some message) 0 = Err e).
Proof.
  unfold visualize_message.
  destruct (first_failure (render_segment message) (enumerate (Message.content message)))
    as [[fragments H]|(l1 & [j failing] & l2 & e & Hl & H1 & Hp)].
  - left. rewrite (_build_html_ok _ _ H). eexists. split; [unfold display; done|].
    intros i block Hi.
    destruct (Forall2_lookup_l _ _ _ i (i, block) H) as (fragment & _ & Hr).
    { by rewrite enumerate_lookup, Hi. }
    unfold render_segment in Hr. simpl in Hr. by rewrite Hr.
  - right. rewrite (_build_html_raises _ _ _ _ _ Hl H1 Hp).
    destruct (enumerate_split _ _ _ _ Hl) as (Hj & Hfailing & _).
    simpl in Hj, Hfailing. subst j. by exists e, (length l1), failing.
Qed.

(** X2. A message without segments renders: the document is the header and
    the empty content frame. *)
Theorem empty_message_renders (message : Message.t) (sink : Sink) :
  Message.content message = [] →
  visualize_message message sink
  = (Ok (), sink ++ [header_html message ++ content_open_html ++ content_close_html]).
Proof.
  intros Hcontent. unfold visualize_message.
  rewrite (_build_html_ok message []); [done|]. rewrite Hcontent. constructor.
Qed.

Lemma empty_message_renders_witness :
  visualize_message (Sample.message []) []
  = (Ok (), [] ++ [header_html (Sample.message []) ++ content_open_html
                   ++ content_close_html]).
Proof. apply (empty_message_renders (Sample.message []) []). reflexivity. Defined.

(** ** Tool use *)

(** X3. A server tool use is rendered exactly like a tool use. *)
Theorem server_tool_use_like_tool_use (block : Block.t) :
  _render_server_tool_use_block block = _render_tool_use_block block.
Proof. reflexivity. Qed.

(** X4. The encoding of the input of a tool use is not guarded: with the
    three fields present, the block renders with the encoded input inside
    when [json.dumps] returns, and the exception of [json.dumps] leaves
    [_render_block] when it raises. *)
Theorem tool_use_encoder_outcome (block : Block.t) (index : nat)
    (message : option Message.t) (depth : nat) (name id : str) (input : Object.t) :
  Block.type block = Some (lit "tool_use") ∨ Block.type block = Some (lit "server_tool_use") →
  Block.name block = Some name →
  Block.id block = Some id →
  Block.input block = Some input →
  match json_dumps input false with
  | Returns encoded =>
      ∃ before after,
        _render_block block index message depth = Ok (before ++ encoded ++ after)
  | Raises msg =>
      _render_block block index message depth = Err (OtherException msg)
  end.
Proof.
  intros Htype Hname Hid Hinput.
  assert (_render_tool_use_block block
          = match json_dumps input false with
            | Returns encoded => _render_tool_use_block block
            | Raises msg => Err (OtherException msg)
            end) as Hraise.
  { unfold _render_tool_use_block.
    rewrite Hname, Hid, Hinput, !getattr_Some, !bind_Ok.
    by destruct (json_dumps input false). }
  assert (∀ encoded, json_dumps input false = Returns encoded →
    ∃ before after, _render_tool_use_block block = Ok (before ++ encoded ++ after)) as Hok.
  { intros encoded Hencoded. unfold _render_tool_use_block.
    rewrite Hname, Hid, Hinput, !getattr_Some, !bind_Ok, Hencoded.
    unfold propagate. rewrite bind_Ok, !app_assoc, <-app_assoc. by eexists _, _. }
  unfold _render_block.
  destruct Htype as [Htype|Htype]; rewrite Htype, getattr_Some, bind_Ok; cbv zeta;
    decide_tags; cbn [orb]; change (_render_server_tool_use_block block)
      with (_render_tool_use_block block);
    (destruct (json_dumps input false) as [encoded|msg] eqn:Hencoded;
     [ destruct (Hok encoded eq_refl) as (before & after & ->);
       rewrite bind_Ok, reassociate_middle; by eexists _, _
     | by rewrite Hraise ]).
Qed.

Lemma tool_use_encoder_outcome_witness :
  match json_dumps Cases.not_encodable false with
  | Returns encoded =>
      ∃ before after,
        _render_block (Cases.tool_use "tool_use" Cases.not_encodable) 0 None 0
        = Ok (before ++ encoded ++ after)
  | Raises msg =>
      _render_block (Cases.tool_use "tool_use" Cases.not_encodable) 0 None 0
      = Err (OtherException msg)
  end.
Proof.
  apply (tool_use_encoder_outcome (Cases.tool_use "tool_use" Cases.not_encodable) 0 None 0
    (lit "get_weather") (lit "toolu_01") Cases.not_encodable).
  - left. reflexivity.
  - reflexivity.
  - reflexivity.
  - reflexivity.
Defined.

(** ** Tool results *)

(** X5. A tool result that has its identifier and its content always
    renders: the serialization of its sub-blocks cannot stop it.  The
    document is the frame with the identifier, the ERROR badge exactly when
    [is_error] is true, and the content: a string as it is, a list as one
    entry per sub-block in the order of the list, each under its tag when it
    has one. *)
Theorem tool_result_always_renders (block : Block.t) (tool_use_id : str) (c : content) :
  Block.tool_use_id block = Some tool_use_id →
  Block.content block = Some c →
  _render_tool_result_block block
  = Ok (tool_result_open_html tool_use_id
          (if bool_decide (Block.is_error block = Some true) then error_badge_html else [])
        ++ tool_result_body c ++ tool_result_close_html).
Proof.
  intros Hid Hcontent. unfold _render_tool_result_block. cbv zeta.
  rewrite Hid, Hcontent, !getattr_Some, !bind_Ok.
  assert ((if default false (Block.is_error block) then error_badge_html else [])
          = (if bool_decide (Block.is_error block = Some true)
             then error_badge_html else [])) as Hbadge.
  { by destruct (Block.is_error block) as [[]|]. }
  unfold error_badge_html in Hbadge at 1. rewrite Hbadge.
  fold (tool_result_open_html tool_use_id
    (if bool_decide (Block.is_error block = Some true) then error_badge_html else [])).
  fold tool_result_close_html.
  destruct c as [s|l|repr iterable]; cbn [tool_result_body].
  - by rewrite <-app_assoc.
  - by rewrite tool_result_entries, <-app_assoc.
  - by rewrite <-app_assoc.
Qed.

Lemma tool_result_always_renders_witness :
  _render_tool_result_block
    (Cases.tool_result (Some true)
       (ContentList [Cases.sub_block "text"; Cases.sub_block "image"]))
  = Ok (tool_result_open_html (lit "toolu_01")
          (if bool_decide (Block.is_error (Cases.tool_result (Some true)
                (ContentList [Cases.sub_block "text"; Cases.sub_block "image"]))
              = Some true)
           then error_badge_html else [])
        ++ tool_result_body (ContentList [Cases.sub_block "text"; Cases.sub_block "image"])
        ++ tool_result_close_html).
Proof.
  apply (tool_result_always_renders
    (Cases.tool_result (Some true)
       (ContentList [Cases.sub_block "text"; Cases.sub_block "image"]))).
  - reflexivity.
  - reflexivity.
Defined.

(** X6. For a tool result, an [is_error] that is absent, [None] or false is
    all the same: two blocks with the same identifier and content, neither
    with a true [is_error], render alike, also in how they fail. *)
Theorem tool_result_without_error_flag (block1 block2 : Block.t) :
  Block.tool_use_id block1 = Block.tool_use_id block2 →
  Block.content block1 = Block.content block2 →
  Block.is_error block1 ≠ Some true →
  Block.is_error block2 ≠ Some true →
  _render_tool_result_block block1 = _render_tool_result_block block2.
Proof.
  intros Hid Hcontent H1 H2. unfold _render_tool_result_block.
  rewrite Hid, Hcontent.
  by destruct (Block.is_error block1) as [[]|], (Block.is_error block2) as [[]|].
Qed.

Lemma tool_result_without_error_flag_witness :
  _render_tool_result_block (Cases.tool_result None (ContentStr (lit "72 degrees")))
  = _render_tool_result_block (Cases.tool_result (Some false) (ContentStr (lit "72 degrees"))).
Proof.
  apply (tool_result_without_error_flag
    (Cases.tool_result None (ContentStr (lit "72 degrees")))
    (Cases.tool_result (Some false) (ContentStr (lit "72 degrees"))));
    first [reflexivity | discriminate].
Defined.

(** ** Images and documents *)

Lemma contains_prefix (x c rest l2 : str) :
  (∃ after, c = l2 ++ after) → contains (x ++ c ++ rest) (x ++ l2).
Proof.
  intros [after ->]. exists [], (after ++ rest). by rewrite <-!app_assoc.
Qed.

Ltac decide_option_tags :=
  repeat match goal with
  | |- context [bool_decide (Some (lit ?a) = Some (lit ?b))] =>
      let v := eval vm_compute in (bool_decide (Some (lit a) = Some (lit b))) in
      change (bool_decide (Some (lit a) = Some (lit b))) with v
  end.

(** X7. A [dict] source whose values are strings or [None] never stops the
    rendering of an image or of a document, whichever of its keys are
    missing: the keys are read with [dict.get], and a missing key reads as
    [None]. *)
Theorem dict_source_always_renders (block : Block.t) (d : Source.fields) :
  Block.source block = Some (Source.Dict d) →
  is_ok (_render_image_block block) = true
  ∧ is_ok (_render_document_block block) = true.
Proof.
  intros Hsource. unfold _render_image_block, _render_document_block.
  rewrite Hsource, getattr_Some, !bind_Ok. unfold source_field. rewrite !bind_Ok.
  cbv zeta. split.
  - destruct (bool_decide (default None (Source.type d) = Some (lit "base64"))); [done|].
    by destruct (bool_decide (default None (Source.type d) = Some (lit "url"))).
  - by destruct (bool_decide (default None (Source.type d) = Some (lit "base64"))).
Qed.

Lemma dict_source_always_renders_witness :
  is_ok (_render_image_block (Cases.image (Source.Dict Cases.url_without_url))) = true
  ∧ is_ok (_render_document_block (Cases.image (Source.Dict Cases.url_without_url))) = true.
Proof.
  apply (dict_source_always_renders (Cases.image (Source.Dict Cases.url_without_url))
    Cases.url_without_url).
  reflexivity.
Defined.

(** X8. An image whose source is of kind [base64] reports the length of its
    payload, 0 when the payload is [None] or empty, and embeds the payload
    as it is in a [data:] URL with the media type; a media type or payload
    that is [None] is embedded as the text [None]. *)
Theorem image_base64_embeds_payload (block : Block.t) (source : Source.t)
    (media_type data : option str) :
  Block.source block = Some source →
  source_field "type" Source.type source = Ok (Some (lit "base64")) →
  source_field "media_type" Source.media_type source = Ok media_type →
  source_field "data" Source.data source = Ok data →
  ∃ html,
    _render_image_block block = Ok html
    ∧ contains html
        (str_nat (if truthy data then length (default [] data) else 0) ++ lit " bytes")
    ∧ contains html
        (lit "<img src=`data:" ++ str_optional media_type ++ lit ";base64,"
         ++ str_optional data ++ lit "`").
Proof.
  intros Hsource Htype Hmedia Hdata. unfold _render_image_block.
  rewrite Hsource, getattr_Some, bind_Ok, Htype, bind_Ok. cbv zeta.
  rewrite bool_decide_eq_true_2 by done. rewrite Hmedia, bind_Ok, Hdata, bind_Ok.
  eexists. split; [reflexivity|]. split.
  - do 4 apply contains_app_r. apply contains_prefix. literal_prefix.
  - do 5 apply contains_app_r. apply contains_embed; [literal_suffix|literal_prefix].
Qed.

Lemma image_base64_embeds_payload_witness :
  ∃ html,
    _render_image_block (Cases.image (Source.Obj Cases.png)) = Ok html
    ∧ contains html
        (str_nat (if truthy (Some (lit "iVBORw0K"))
                  then length (default [] (Some (lit "iVBORw0K"))) else 0)
         ++ lit " bytes")
    ∧ contains html
        (lit "<img src=`data:" ++ str_optional (Some (lit "image/png")) ++ lit ";base64,"
         ++ str_optional (Some (lit "iVBORw0K")) ++ lit "`").
Proof.
  apply (image_base64_embeds_payload (Cases.image (Source.Obj Cases.png))
    (Source.Obj Cases.png)); reflexivity.
Defined.

(** X9. Only images follow a source of kind [url].  With an object source
    that says [url] and has no [url] attribute, the image raises and the
    document renders: a document reads nothing but the kind unless the kind
    is [base64]. *)
Theorem document_ignores_url_sources (block : Block.t) (o : Source.fields) :
  Block.source block = Some (Source.Obj o) →
  Source.type o = Some (Some (lit "url")) →
  Source.url o = None →
  _render_image_block block = Err (AttributeError (lit "url"))
  ∧ is_ok (_render_document_block block) = true.
Proof.
  intros Hsource Htype Hurl. unfold _render_image_block, _render_document_block.
  rewrite Hsource, getattr_Some, !bind_Ok. unfold source_field.
  rewrite Htype, Hurl, !getattr_Some, !bind_Ok. cbv zeta. decide_option_tags.
  split; reflexivity.
Qed.

Lemma document_ignores_url_sources_witness :
  _render_image_block (Cases.image (Source.Obj Cases.url_without_url))
  = Err (AttributeError (lit "url"))
  ∧ is_ok (_render_document_block (Cases.image (Source.Obj Cases.url_without_url))) = true.
Proof.
  apply (document_ignores_url_sources (Cases.image (Source.Obj Cases.url_without_url))
    Cases.url_without_url); reflexivity.
Defined.

(** ** The tables *)

Lemma tooltip_known (tag : str) :
  is_Some (_get_block_tooltip_text tag) → tag ∈ known_tags.
Proof.
  unfold _get_block_tooltip_text. cbv zeta.
  intros [tooltip H]. apply elem_of_list_to_map_2 in H.
  apply (list_elem_of_fmap_2 fst) in H. exact H.
Qed.


(** X11. A tag outside the tables gets the defaults: the bullet as its icon,
    the grey as its colour, and no tooltip. *)
Theorem unstyled_tag_defaults (tag : str) :
  tag ∉ styled_tags →
  _get_block_icon tag = [8226%N]
  ∧ _get_block_color tag = lit "#666"
  ∧ _get_block_tooltip_text tag = None.
Proof.
  intros Hunstyled. unfold _get_block_icon, _get_block_color, _get_block_tooltip_text.
  cbv zeta. split_and!.
  - by rewrite (not_elem_of_list_to_map_1 _ tag).
  - by rewrite (not_elem_of_list_to_map_1 _ tag).
  - apply not_elem_of_list_to_map_1. intros Hin. apply Hunstyled.
    cbn [fmap list_fmap fst] in Hin.
    repeat (apply elem_of_cons in Hin as [->|Hin];
            [apply (bool_decide_unpack _); vm_compute; reflexivity|]).
    by apply not_elem_of_nil in Hin.
Qed.

Lemma unstyled_tag_defaults_witness :
  _get_block_icon (lit "redacted_thinking") = [8226%N]
  ∧ _get_block_color (lit "redacted_thinking") = lit "#666"
  ∧ _get_block_tooltip_text (lit "redacted_thinking") = None.
Proof.
  apply (unstyled_tag_defaults (lit "redacted_thinking")).
  apply (bool_decide_unpack _). vm_compute. reflexivity.
Defined.

(** X12. The colours are two: every tag is shown in black or in grey. *)
Theorem two_colour_palette (tag : str) :
  _get_block_color tag = lit "#000" ∨ _get_block_color tag = lit "#666".
Proof.
  unfold _get_block_color. cbv zeta.
  match goal with |- context [?m !! tag] => destruct (m !! tag) as [color|] eqn:H end;
    [|by right].
  apply elem_of_list_to_map_2, (list_elem_of_fmap_2 snd) in H.
  cbn [fmap list_fmap snd default] in *.
  repeat (apply elem_of_cons in H as [->|H]; [by (left + right)|]).
  by apply not_elem_of_nil in H.
Qed.

(** ** Text segments and their siblings *)

(** X13. A text segment without citations never looks at the message: it
    renders, and the same with any message or with none. *)
Theorem text_without_citations_ignores_message (block : Block.t) (text : str)
    (message : option Message.t) :
  Block.text block = Some text →
  has_citations block = false →
  _render_text_block block message = _render_text_block block None
  ∧ is_ok (_render_text_block block message) = true.
Proof.
  intros Htext Hcitations.
  rewrite !(_render_text_block_cases _ _ _ Htext), Hcitations.
  split; [done|]. destruct (blank text); [done|]. by case_decide.
Qed.

Lemma text_without_citations_ignores_message_witness :
  _render_text_block (Sample.text_block (lit "fine") None) (Some Cases.orphaned)
  = _render_text_block (Sample.text_block (lit "fine") None) None
  ∧ is_ok (_render_text_block (Sample.text_block (lit "fine") None) (Some Cases.orphaned))
    = true.
Proof.
  apply (text_without_citations_ignores_message
    (Sample.text_block (lit "fine") None) (lit "fine") (Some Cases.orphaned));
    reflexivity.
Defined.

Lemma blank_Forall (text : str) :
  blank text = true ↔ Forall (λ c, isspace c = true) text.
Proof.
  unfold blank. induction text as [|c text IH]; simpl.
  - split; [constructor|done].
  - rewrite andb_true_iff, IH, Forall_cons. done.
Qed.

(** X14. Without citations, a text segment renders as the empty placeholder
    exactly when every character of its text is whitespace, the empty text
    included. *)
Theorem placeholder_iff_blank (block : Block.t) (text : str) (message : option Message.t) :
  Block.text block = Some text →
  has_citations block = false →
  _render_text_block block message = Ok empty_text_html
  ↔ Forall (λ c, isspace c = true) text.
Proof.
  intros Htext Hcitations.
  rewrite (_render_text_block_cases _ _ _ Htext), Hcitations.
  rewrite <-blank_Forall.
  destruct (blank text); split; try done.
  case_decide; intros Heq%(inj Ok); symmetry in Heq.
  - by apply empty_is_not_plain in Heq.
  - by apply empty_is_not_long in Heq.
Qed.

(** A no-break space and an ideographic space are whitespace too. *)
Lemma placeholder_iff_blank_witness :
  _render_text_block (Sample.text_block [160; 12288; 9]%N None) None = Ok empty_text_html
  ↔ Forall (λ c, isspace c = true) [160; 12288; 9]%N.
Proof.
  apply (placeholder_iff_blank (Sample.text_block [160; 12288; 9]%N None)
    [160; 12288; 9]%N None); reflexivity.
Defined.

Lemma index_turns_raise (bs1 bs2 : list Block.t) (b : Block.t) (e : exception)
    (index_of : gmap str nat) :
  Forall (λ b', Block.type b' = Some (lit "web_search_tool_result") →
            ∃ l, Block.content b' = Some (ContentList l)) bs1 →
  (∀ acc, index_turn acc b = Err e) →
  for_each index_turn (bs1 ++ b :: bs2) index_of = Err e.
Proof.
  intros H Hb. revert index_of.
  induction H as [|b' bs1 Hb' _ IH]; intros index_of; cbn [app for_each].
  - by rewrite Hb.
  - assert (∃ index_of', index_turn index_of b' = Ok index_of') as [index_of' ->].
    { unfold index_turn. case_bool_decide as Htype; [|by eexists].
      destruct (Hb' Htype) as [l ->]. by eexists. }
    rewrite bind_Ok. apply IH.
Qed.

(** X15. A text segment with citations depends on its siblings: when a web
    search segment of the message has no [content], and those before it have
    a list, the text segment raises the [AttributeError] of that sibling,
    wherever the two stand in the message. *)
Theorem sibling_without_content_breaks_citations (block : Block.t) (text : str)
    (message : Message.t) (bs1 bs2 : list Block.t) (b : Block.t) :
  Block.text block = Some text →
  has_citations block = true →
  Message.content message = bs1 ++ b :: bs2 →
  Forall (λ b', Block.type b' = Some (lit "web_search_tool_result") →
            ∃ l, Block.content b' = Some (ContentList l)) bs1 →
  Block.type b = Some (lit "web_search_tool_result") →
  Block.content b = None →
  _render_text_block block (Some message) = Err (AttributeError (lit "content")).
Proof.
  intros Htext Hcitations Hcontent Hbefore Htype Hnone.
  rewrite (_render_text_block_cases _ _ _ Htext), Hcitations.
  rewrite url_to_index_turns, Hcontent.
  rewrite (index_turns_raise _ _ _ (AttributeError (lit "content"))); [done|done|].
  intros acc. unfold index_turn. by rewrite Htype, bool_decide_eq_true_2, Hnone.
Qed.

Lemma sibling_without_content_breaks_citations_witness :
  _render_text_block Sample.citing_block (Some Cases.orphaned)
  = Err (AttributeError (lit "content")).
Proof.
  apply (sibling_without_content_breaks_citations Sample.citing_block (lit "The answer.")
    Cases.orphaned [Sample.citing_block] [] (Sample.bare "web_search_tool_result")).
  - reflexivity.
  - reflexivity.
  - reflexivity.
  - repeat constructor. intros H. vm_compute in H. discriminate.
  - reflexivity.
  - reflexivity.
Defined.

(** ** Search results and the numbers that cite them *)

Lemma index_results_skip (index_of : gmap str nat) (results : list (nat * Item.t))
    (url : str) :
  Forall (λ p, Item.url p.2 ≠ Some url) results →
  index_results index_of results !! url = index_of !! url.
Proof.
  intros H. revert index_of.
  induction H as [|[idx result] results Hp _ IH]; intros index_of; [done|].
  cbn [index_results foldl] in *. rewrite IH. simpl in Hp.
  destruct (Item.url result) as [url'|]; [|done].
  apply lookup_insert_ne. by intros ->.
Qed.

Lemma index_results_last (index_of : gmap str nat) (l1 l2 : list (nat * Item.t))
    (n : nat) (result : Item.t) (url : str) :
  Item.url result = Some url →
  Forall (λ p, Item.url p.2 ≠ Some url) l2 →
  index_results index_of (l1 ++ (n, result) :: l2) !! url = Some (n + 1).
Proof.
  intros Hurl Hlater. rewrite index_results_app.
  change ((n, result) :: l2) with ([(n, result)] ++ l2).
  rewrite index_results_app, index_results_skip by done.
  cbn [index_results foldl]. rewrite Hurl. apply lookup_insert_eq.
Qed.

Lemma enumerate_middle {A} (l : list A) (n : nat) (x : A) :
  l !! n = Some x →
  enumerate l
  = enumerate (take n l) ++ (n, x) :: imap (λ i y, (S n + i, y)) (drop (S n) l).
Proof.
  intros Hn. unfold enumerate.
  rewrite <-(take_drop_middle l n x Hn) at 1.
  rewrite imap_app. cbn [imap]. rewrite length_take_le by (apply lookup_lt_Some in Hn; lia).
  do 2 f_equal; [f_equal; lia|]. apply imap_ext. intros i y _. simpl. f_equal. lia.
Qed.

Lemma elem_of_indexed_results_block (block : Block.t) (idx : nat) (result : Item.t) :
  (idx, result) ∈ indexed_results block →
  Block.type block = Some (lit "web_search_tool_result")
  ∧ ∃ results, Block.content block = Some (ContentList results)
      ∧ results !! idx = Some result.
Proof.
  unfold indexed_results. case_bool_decide as Htype; [|by intros ?%not_elem_of_nil].
  destruct (Block.content block) as [[s|results|repr iterable]|];
    try by intros ?%not_elem_of_nil.
  intros Hin%elem_of_enumerate. eauto.
Qed.

(** The entry of a search result shows its position, counted from one. *)
Lemma _render_individual_search_result_label result index entry :
  _render_individual_search_result result index = Ok entry →
  contains entry (lit "Result " ++ str_nat (index + 1)).
Proof.
  unfold _render_individual_search_result.
  destruct (Item.title result); [|done]. destruct (Item.url result); [|done].
  destruct (Item.page_age result); [|done].
  destruct (Item.encrypted_content result); [|done].
  rewrite !getattr_Some, !bind_Ok. intros <-%(inj Ok).
  apply contains_at_seam. literal_suffix.
Qed.

(** X16. When a URL is listed more than once the last listing numbers it,
    and the number of a citation points at the entry of that listing.  If
    the result at position [n] of a web search segment has the URL, and
    neither a later result of that segment nor a result of a later segment
    has it, then the map gives the URL the number [n + 1], every citation of
    the URL is shown with [n + 1], and the nested entry of that result is
    labelled [Result n + 1]. *)
Theorem citation_points_to_last_listing (message : Message.t) (index_of : gmap str nat)
    (bs1 bs2 : list Block.t) (b : Block.t) (results : list Item.t) (n : nat)
    (result : Item.t) (url : str) :
  url_to_index (Some message) = Ok index_of →
  Message.content message = bs1 ++ b :: bs2 →
  Block.type b = Some (lit "web_search_tool_result") →
  Block.content b = Some (ContentList results) →
  results !! n = Some result →
  Item.url result = Some url →
  (∀ k later, n < k → results !! k = Some later → Item.url later ≠ Some url) →
  (∀ b' l later, b' ∈ bs2 → Block.type b' = Some (lit "web_search_tool_result") →
     Block.content b' = Some (ContentList l) → later ∈ l → Item.url later ≠ Some url) →
  index_of !! url = Some (n + 1)
  ∧ (∀ idx citation, Citation.url citation = Some url →
       citation_number index_of idx citation = n + 1)
  ∧ (∀ entry, _render_individual_search_result result n = Ok entry →
       contains entry (lit "Result " ++ str_nat (n + 1))).
Proof.
  intros Hindex Hcontent Htype Hlist Hn Hurl Hlater Hblocks.
  assert (index_of !! url = Some (n + 1)) as Hnumber.
  { rewrite (url_to_index_ok _ _ Hindex), Hcontent, bind_app, bind_cons.
    unfold indexed_results at 2. rewrite Htype, bool_decide_eq_true_2, Hlist by done.
    rewrite (enumerate_middle _ _ _ Hn), <-!app_assoc, <-app_comm_cons.
    rewrite app_assoc.
    apply index_results_last; [done|]. apply Forall_app. split.
    - apply Forall_forall. intros [k later] Hin.
      apply elem_of_lookup_imap in Hin as (i & y & [= -> ->] & Hi).
      rewrite lookup_drop in Hi. simpl. eapply Hlater; [|done]. lia.
    - apply Forall_forall. intros [k later] (b' & Hin & Hb')%list_elem_of_bind.
      apply elem_of_indexed_results_block in Hin as (Htype' & l & Hl & Hk).
      simpl. eapply Hblocks; [done..|]. by eapply list_elem_of_lookup_2. }
  split_and!; [done| |].
  - intros idx citation Hc. unfold citation_number. by rewrite Hc, Hnumber.
  - intros entry. apply _render_individual_search_result_label.
Qed.

(** Listed in second place and then in first place, [u1] is number 1. *)
Lemma citation_points_to_last_listing_witness :
  Cases.listed_twice_index !! lit "u1" = Some (0 + 1)
  ∧ (∀ idx citation, Citation.url citation = Some (lit "u1") →
       citation_number Cases.listed_twice_index idx citation = 0 + 1)
  ∧ (∀ entry, _render_individual_search_result (Sample.search_result "u1") 0 = Ok entry →
       contains entry (lit "Result " ++ str_nat (0 + 1))).
Proof.
  apply (citation_points_to_last_listing Cases.listed_twice Cases.listed_twice_index
    [Sample.search_block [Sample.search_result "u0"; Sample.search_result "u1"]] []
    (Sample.search_block [Sample.search_result "u1"; Sample.search_result "u2"])
    [Sample.search_result "u1"; Sample.search_result "u2"]).
  - vm_compute. reflexivity.
  - reflexivity.
  - reflexivity.
  - reflexivity.
  - reflexivity.
  - reflexivity.
  - intros [|[|k]] later Hk [= <-]; [lia|]. vm_compute. discriminate.
  - intros b' l later Hin. by apply not_elem_of_nil in Hin.
Defined.

(** X17. The encrypted content of a search result is never shown, only
    measured: two results with the same title, URL and page age, and
    encrypted contents of the same length, have the same entry. *)
Theorem encrypted_content_only_measured (result1 result2 : Item.t) (index : nat) :
  Item.title result1 = Item.title result2 →
  Item.url result1 = Item.url result2 →
  Item.page_age result1 = Item.page_age result2 →
  length <$> Item.encrypted_content result1 = length <$> Item.encrypted_content result2 →
  _render_individual_search_result result1 index
  = _render_individual_search_result result2 index.
Proof.
  intros Htitle Hurl Hage Hlength. unfold _render_individual_search_result.
  rewrite Htitle, Hurl, Hage.
  destruct (Item.title result2); [|done]. destruct (Item.url result2); [|done].
  destruct (Item.page_age result2); [|done].
  destruct (Item.encrypted_content result1), (Item.encrypted_content result2);
    try done.
  rewrite !getattr_Some, !bind_Ok. injection Hlength as ->. done.
Qed.

Lemma encrypted_content_only_measured_witness :
  _render_individual_search_result (Cases.sealed "c2VjcmV0") 0
  = _render_individual_search_result (Cases.sealed "b3RoZXIx") 0.
Proof.
  apply (encrypted_content_only_measured (Cases.sealed "c2VjcmV0") (Cases.sealed "b3RoZXIx") 0);
    reflexivity.
Defined.

(** ** Thinking, the header, and the fallback *)

(** X18. A thinking block with its field always renders, in the collapsed
    form labelled with the number of characters of the thought and with the
    thought inside; unlike a text, neither an empty nor a long thought takes
    another path. *)
Theorem thinking_is_always_collapsed (block : Block.t) (thought : str) :
  Block.thinking block = Some thought →
  ∃ html,
    _render_thinking_block block = Ok html
    ∧ contains html
        (lit "Extended Thinking (" ++ str_nat (length thought) ++ lit " characters)")
    ∧ contains html thought
    ∧ ∃ rest, html = lit "
    <details>" ++ rest.
Proof.
  intros Hthought. unfold _render_thinking_block.
  rewrite Hthought, getattr_Some, bind_Ok.
  eexists. split; [reflexivity|]. split_and!.
  - apply contains_between; [literal_suffix|literal_prefix].
  - do 5 apply contains_app_r. by eexists [], _.
  - match goal with
    | |- ∃ rest, ?a ++ ?tail = ?label ++ rest =>
        exists (drop (length label) a ++ tail); rewrite app_assoc; f_equal;
        vm_compute; reflexivity
    end.
Qed.

(** An empty thought is shown collapsed, with its count of 0. *)
Lemma thinking_is_always_collapsed_witness :
  ∃ html,
    _render_thinking_block (Cases.thinking []) = Ok html
    ∧ contains html
        (lit "Extended Thinking (" ++ str_nat (length ([] : str)) ++ lit " characters)")
    ∧ contains html []
    ∧ ∃ rest, html = lit "
    <details>" ++ rest.
Proof. apply (thinking_is_always_collapsed (Cases.thinking []) []). reflexivity. Defined.

(** X19. The usage statistics follow the header proper: the header of a
    message with usage is the header of the same message without it,
    followed by a section that shows the two token counts. *)
Theorem usage_section_follows_header (message bare : Message.t) (usage : Usage.t) :
  Message.id bare = Message.id message →
  Message.model bare = Message.model message →
  Message.stop_reason bare = Message.stop_reason message →
  Message.role bare = Message.role message →
  Message.usage bare = None →
  Message.usage message = Some usage →
  ∃ section,
    header_html message = header_html bare ++ section
    ∧ contains section
        (lit "Input: <strong style=`color: #000;`>"
         ++ str_nat (Usage.input_tokens usage) ++ lit "</strong> tokens")
    ∧ contains section
        (lit "Output: <strong style=`color: #000;`>"
         ++ str_nat (Usage.output_tokens usage) ++ lit "</strong> tokens").
Proof.
  intros Hid Hmodel Hstop Hrole Hbare Husage. unfold header_html. cbv zeta.
  rewrite Hbare, Husage, Hid, Hmodel, Hstop, Hrole.
  eexists. split; [reflexivity|]. split.
  - apply contains_between; [literal_suffix|literal_prefix].
  - do 2 apply contains_app_r.
    match goal with
    | |- contains (?b ++ ?x ++ ?c) (?l1 ++ ?x ++ ?l2) =>
        rewrite <-(app_nil_r c); apply contains_between; [literal_suffix|literal_prefix]
    end.
Qed.

Lemma usage_section_follows_header_witness :
  ∃ section,
    header_html (Sample.message [])
    = header_html (Message.mk (lit "msg_01") (lit "claude") (Some (lit "end_turn"))
                     (lit "assistant") None [Sample.bare "text"]) ++ section
    ∧ contains section
        (lit "Input: <strong style=`color: #000;`>"
         ++ str_nat (Usage.input_tokens (Usage.mk 12 34)) ++ lit "</strong> tokens")
    ∧ contains section
        (lit "Output: <strong style=`color: #000;`>"
         ++ str_nat (Usage.output_tokens (Usage.mk 12 34)) ++ lit "</strong> tokens").
Proof.
  apply (usage_section_follows_header (Sample.message [])
    (Message.mk (lit "msg_01") (lit "claude") (Some (lit "end_turn"))
       (lit "assistant") None [Sample.bare "text"]) (Usage.mk 12 34)); reflexivity.
Defined.

(** X20. The three attempts of [_safe_json] are alternatives, not
    fall-backs: for an object with a [model_dump], what is returned depends
    on the outcome of that call alone, so that when its result cannot be
    encoded the placeholder is returned whatever the fields of the object
    are. *)
Theorem no_fall_through_between_attempts (obj1 obj2 : PyObject.t)
    (call : outcome Object.t) :
  PyObject.model_dump obj1 = Some call →
  PyObject.model_dump obj2 = Some call →
  _safe_json obj1 = _safe_json obj2.
Proof.
  intros H1 H2. unfold _safe_json, serialize. by rewrite H1, H2.
Qed.

Lemma no_fall_through_between_attempts_witness :
  _safe_json Cases.with_fields = _safe_json Cases.without_fields.
Proof.
  apply (no_fall_through_between_attempts Cases.with_fields Cases.without_fields
    (Returns Cases.not_encodable)); reflexivity.
Defined.

(** X21. A block of a variant the dispatcher does not know never stops the
    render: whatever its other fields, it is rendered with the outcome of
    [_safe_json] between the opening of the block and its closing. *)
Theorem unknown_variant_always_renders (block : Block.t) (index : nat)
    (message : option Message.t) (depth : nat) (tag : str) :
  Block.type block = Some tag →
  tag ∉ known_tags →
  ∃ before,
    _render_block block index message depth
    = Ok (before ++ _safe_json (Block.py block) ++ lit "</pre>" ++ lit "</div>")
    ∧ contains before (lit "Block " ++ str_nat index)
    ∧ _get_block_tooltip_text tag = None.
Proof.
  intros Htype Hunknown.
  assert (_get_block_tooltip_text tag = None) as Htooltip.
  { destruct (_get_block_tooltip_text tag) eqn:H; [|done].
    destruct Hunknown. apply tooltip_known. by rewrite H. }
  unfold _render_block.
  rewrite Htype, getattr_Some, bind_Ok. cbv zeta.
  rewrite !(unknown_tag tag)
    by first [exact Hunknown | apply (bool_decide_unpack _); vm_compute; reflexivity].
  rewrite bind_Ok, Htooltip. cbn [truthy].
  eexists. split_and!; [|shelve|done].
  - rewrite reassociate_middle. reflexivity.
  Unshelve. apply contains_app_l, block_open_html_badge.
Qed.

Lemma unknown_variant_always_renders_witness :
  ∃ before,
    _render_block Sample.unknown_block 3 None 0
    = Ok (before ++ _safe_json (Block.py Sample.unknown_block) ++ lit "</pre>"
          ++ lit "</div>")
    ∧ contains before (lit "Block " ++ str_nat 3)
    ∧ _get_block_tooltip_text (lit "redacted_thinking") = None.
Proof.
  apply (unknown_variant_always_renders Sample.unknown_block 3 None 0
    (lit "redacted_thinking")).
  - reflexivity.
  - apply (bool_decide_unpack _). vm_compute. reflexivity.
Defined.
